(** * claro-library-energy: the mechanistic simulator and its feature builder

    A shallow embedding of [src/claro/simulate.py] and of the comfort-pressure
    helper of [src/claro/build_features.py].

    Conventions of the embedding:
    - Python [int] is [Z]; Python [float] is idealised as a real number [R]
      (exact arithmetic, [math.sin], [math.exp] and [math.pi] are the real
      [sin], [exp] and [PI]);
    - a naive [datetime] is identified with the number of microseconds that
      separate it from 0001-01-01T00:00:00 in the proleptic Gregorian
      calendar; its fields ([hour], [minute], [weekday()], [tm_yday], ...) are
      computed from that count the way the [datetime] module does;
    - [random.Random(seed)] is a position in the sequence of standard normal
      variates that the seed determines; [normalvariate(mu, sigma)] reads the
      next variate [z] and returns [mu + z * sigma];
    - a raised exception is a [Raise] result;
    - the file system is what it answers to [os.makedirs] and [open]; paths
      are POSIX paths. *)

From Stdlib Require Import ZArith List String Ascii Bool Lia.
From Stdlib Require Import Reals Lra.
From Stdlib Require Decimal DecimalString DecimalZ Sorted.
Import ListNotations.

(** ** Results of fallible code *)

Inductive exn : Type :=
| ZeroDivisionError
| OverflowError
| ValueError
| FileNotFoundError
| OSError.

Inductive result (A : Type) : Type :=
| Ok (a : A)
| Raise (e : exn).

Arguments Ok {A} a.
Arguments Raise {A} e.

Definition bind {A B : Type} (r : result A) (k : A -> result B) : result B :=
  match r with
  | Ok a => k a
  | Raise e => Raise e
  end.

Notation "x <- r ;; k" := (bind r (fun x => k))
  (at level 61, r at next level, right associativity).

(** ** The [datetime] module, as far as the simulator uses it *)

Module Datetime.
Open Scope Z_scope.

Record datetime : Type := mk_datetime { since_min_us : Z }.

Definition US_PER_SECOND : Z := 1000000.
Definition US_PER_MINUTE : Z := 60 * US_PER_SECOND.
Definition US_PER_HOUR : Z := 60 * US_PER_MINUTE.
Definition US_PER_DAY : Z := 24 * US_PER_HOUR.

(** [date.max.toordinal()], the ordinal of 9999-12-31. *)
Definition MAXORDINAL : Z := 3652059.

Definition DI400Y : Z := 146097.
Definition DI100Y : Z := 36524.
Definition DI4Y : Z := 1461.

Definition is_leap (year : Z) : bool :=
  (year mod 4 =? 0) && (negb (year mod 100 =? 0) || (year mod 400 =? 0)).

Definition days_before_year (year : Z) : Z :=
  let y := year - 1 in
  y * 365 + y / 4 - y / 100 + y / 400.

Definition DAYS_IN_MONTH : list Z :=
  [-1; 31; 28; 31; 30; 31; 30; 31; 31; 30; 31; 30; 31].

Definition DAYS_BEFORE_MONTH : list Z :=
  [-1; 0; 31; 59; 90; 120; 151; 181; 212; 243; 273; 304; 334].

Definition days_before_month (year month : Z) : Z :=
  nth (Z.to_nat month) DAYS_BEFORE_MONTH 0
  + (if (2 <? month) && is_leap year then 1 else 0).

Definition ymd2ord (year month day : Z) : Z :=
  days_before_year year + days_before_month year month + day.

(** [_ord2ymd]: ordinal to (year, month, day), 0001-01-01 being day 1. *)
Definition ord2ymd (ordinal : Z) : Z * Z * Z :=
  let n := ordinal - 1 in
  let n400 := n / DI400Y in
  let n := n mod DI400Y in
  let year := n400 * 400 + 1 in
  let n100 := n / DI100Y in
  let n := n mod DI100Y in
  let n4 := n / DI4Y in
  let n := n mod DI4Y in
  let n1 := n / 365 in
  let n := n mod 365 in
  let year := year + n100 * 100 + n4 * 4 + n1 in
  if (n1 =? 4) || (n100 =? 4) then (year - 1, 12, 31)
  else
    let leapyear := (n1 =? 3) && (negb (n4 =? 24) || (n100 =? 3)) in
    let month := Z.shiftr (n + 50) 5 in
    let preceding :=
      nth (Z.to_nat month) DAYS_BEFORE_MONTH 0
      + (if (2 <? month) && leapyear then 1 else 0) in
    if n <? preceding then
      let month := month - 1 in
      let preceding :=
        preceding
        - (nth (Z.to_nat month) DAYS_IN_MONTH 0
           + (if (month =? 2) && leapyear then 1 else 0)) in
      (year, month, n - preceding + 1)
    else (year, month, n - preceding + 1).

Definition toordinal (ts : datetime) : Z := since_min_us ts / US_PER_DAY + 1.

Definition year (ts : datetime) : Z := fst (fst (ord2ymd (toordinal ts))).
Definition month (ts : datetime) : Z := snd (fst (ord2ymd (toordinal ts))).
Definition day (ts : datetime) : Z := snd (ord2ymd (toordinal ts)).
Definition hour (ts : datetime) : Z := (since_min_us ts / US_PER_HOUR) mod 24.
Definition minute (ts : datetime) : Z := (since_min_us ts / US_PER_MINUTE) mod 60.
Definition second (ts : datetime) : Z := (since_min_us ts / US_PER_SECOND) mod 60.
Definition microsecond (ts : datetime) : Z := since_min_us ts mod US_PER_SECOND.

(** [ts.weekday()]: 0 is Monday, 6 is Sunday. *)
Definition weekday (ts : datetime) : Z := (toordinal ts + 6) mod 7.

(** [ts.timetuple().tm_yday]: 1 on the first of January. *)
Definition tm_yday (ts : datetime) : Z :=
  days_before_month (year ts) (month ts) + day ts.

(** The count of microseconds since midnight. *)
Definition time_of_day_us (ts : datetime) : Z := since_min_us ts mod US_PER_DAY.

(** [datetime(year, month, day, hour, minute, second)]. *)
Definition datetime_of (y m d hh mm ss : Z) : datetime :=
  mk_datetime ((ymd2ord y m d - 1) * US_PER_DAY
               + hh * US_PER_HOUR + mm * US_PER_MINUTE + ss * US_PER_SECOND).

(** A [datetime] object lies between 0001-01-01 and 9999-12-31. *)
Definition in_range (ts : datetime) : bool :=
  (1 <=? toordinal ts) && (toordinal ts <=? MAXORDINAL).

(** [timedelta.max.days]: the largest magnitude of the days of a
    [timedelta]. *)
Definition MAX_DELTA_DAYS : Z := 999999999.

(** A [timedelta] of [us] microseconds can be built: its days, rounded down,
    are at most 999999999 in magnitude; otherwise its constructor raises
    [OverflowError]. *)
Definition timedelta_ok (us : Z) : bool :=
  Z.abs (us / US_PER_DAY) <=? MAX_DELTA_DAYS.

(** [ts + timedelta(minutes=step_minutes) * i]: the [timedelta], then its
    product by [i], then the sum; each of the three raises [OverflowError]
    when its result is out of range. *)
Definition add_minutes (ts : datetime) (step_minutes i : Z) : result datetime :=
  if negb (timedelta_ok (step_minutes * US_PER_MINUTE)) then Raise OverflowError
  else if negb (timedelta_ok (step_minutes * US_PER_MINUTE * i)) then Raise OverflowError
  else
    let r := mk_datetime (since_min_us ts + step_minutes * US_PER_MINUTE * i) in
    if in_range r then Ok r else Raise OverflowError.

(** Decimal rendering, zero padded to [width] digits ([%0<width>d]). *)
Definition digit (n : Z) : ascii := ascii_of_nat (48 + Z.to_nat (n mod 10)).

Fixpoint digits (width : nat) (n : Z) (acc : string) : string :=
  match width with
  | O => acc
  | S w => digits w (n / 10) (String (digit n) acc)
  end.

Definition pad (width : nat) (n : Z) : string := digits width n EmptyString.

(** [ts.isoformat()]: seconds precision, microseconds only when non-zero. *)
Definition format_time (ts : datetime) : string :=
  let hms :=
    (pad 2 (hour ts) ++ ":" ++ pad 2 (minute ts) ++ ":" ++ pad 2 (second ts))%string in
  if microsecond ts =? 0 then hms
  else (hms ++ "." ++ pad 6 (microsecond ts))%string.

Definition isoformat (ts : datetime) : string :=
  (pad 4 (year ts) ++ "-" ++ pad 2 (month ts) ++ "-" ++ pad 2 (day ts)
   ++ "T" ++ format_time ts)%string.

End Datetime.

Import Datetime.


(** ** Floats as reals: comparisons, [min], [max], [int], [round] *)

Module Float.
Open Scope R_scope.

Definition ltb (x y : R) : bool := if Rlt_dec x y then true else false.
Definition leb (x y : R) : bool := if Rle_dec x y then true else false.

(** [max(a, b)] keeps its first argument unless the second is greater;
    [min(a, b)] keeps its first argument unless the second is smaller. *)
Definition py_max (a b : R) : R := if ltb a b then b else a.
Definition py_min (a b : R) : R := if ltb b a then b else a.

(** [int(x)]: truncation toward zero. *)
Definition py_int (x : R) : Z :=
  if ltb x 0 then (- Int_part (- x))%Z else Int_part x.

(** Rounding to the nearest integer, ties to the even one. *)
Definition round_half_even (y : R) : Z :=
  let f := Int_part y in
  let d := frac_part y in
  if ltb d (1 / 2) then f
  else if ltb (1 / 2) d then (f + 1)%Z
  else if Z.even f then f else (f + 1)%Z.

(** [round(x, ndigits)] for a float [x]. *)
Definition py_round (x : R) (ndigits : nat) : R :=
  IZR (round_half_even (x * 10 ^ ndigits)) / 10 ^ ndigits.

End Float.

Import Float.

(** ** The random source *)

Module Random.

(** The generator object: the variates its seed determines and how many of
    them have been consumed. *)
Record Rng : Type := mk_rng { rng_seq : nat -> R; rng_pos : nat }.

(** [random.Random(seed)], for a library whose seed [s] yields the standard
    normal variates [variates s 0], [variates s 1], ... *)
Definition seeded (variates : Z -> nat -> R) (seed : Z) : Rng :=
  {| rng_seq := variates seed; rng_pos := 0 |}.

(** [rng.normalvariate(mu, sigma)]: the value drawn and the advanced
    generator. *)
Definition normalvariate (mu sigma : R) (rng : Rng) : R * Rng :=
  ((mu + rng_seq rng (rng_pos rng) * sigma)%R,
   {| rng_seq := rng_seq rng; rng_pos := S (rng_pos rng) |}).

End Random.

Import Random.

(** ** [simulate.py] *)

Record SimConfig : Type := mk_SimConfig {
  seed : Z;
  freq_minutes : Z;
  n_days : Z;
  building_factor_x4 : R;
  base_kwh_when_closed : R;
  base_kwh_when_open : R;
  occ_to_activation : R;
  temp_to_activation : R;
  regime_to_activation : R;
  activation_to_kwh : R;
  direct_temp_to_kwh : R;
  inertia_phi : R;
  noise_sigma : R;
  academic_intensity : R
}.

(** [SimConfig()], every field at its default. *)
Definition default_config : SimConfig :=
  {| seed := 123;
     freq_minutes := 60;
     n_days := 60;
     building_factor_x4 := 1.10;
     base_kwh_when_closed := 8.0;
     base_kwh_when_open := 18.0;
     occ_to_activation := 0.020;
     temp_to_activation := 0.060;
     regime_to_activation := 0.35;
     activation_to_kwh := 35.0;
     direct_temp_to_kwh := 0.50;
     inertia_phi := 0.75;
     noise_sigma := 2.5;
     academic_intensity := 1.0 |}.

Definition clamp (x lo hi : R) : R := py_max lo (py_min hi x).

(** [range(n)] *)
Definition range (n : Z) : list Z := map Z.of_nat (seq 0 (Z.to_nat n)).

Fixpoint mapM {A B : Type} (f : A -> result B) (l : list A) : result (list B) :=
  match l with
  | [] => Ok []
  | a :: l' => b <- f a ;; bs <- mapM f l' ;; Ok (b :: bs)
  end.

Definition generate_time_index (start : datetime) (n_steps step_minutes : Z)
  : result (list datetime) :=
  mapM (fun i => add_minutes start step_minutes i) (range n_steps).

(** [ts.hour + ts.minute / 60.0] *)
Definition hour_of (ts : datetime) : R :=
  (IZR (hour ts) + IZR (minute ts) / 60.0)%R.

Definition simulate_outdoor_temp (ts : datetime) (seasonal_amp daily_amp : R) : R :=
  let day_of_year := tm_yday ts in
  let hour := hour_of ts in
  let seasonal := (8.0 + seasonal_amp * sin (2 * PI * (IZR day_of_year / 365.0)))%R in
  let daily := (daily_amp * sin (2 * PI * ((hour - 5.0) / 24.0)))%R in
  (seasonal + daily)%R.

Definition simulate_open_regime (ts : datetime) : Z :=
  let weekday := weekday ts in
  let hour := hour_of ts in
  if (weekday <=? 4)%Z then
    (if leb 8.0 hour && ltb hour 22.0 then 1%Z else 0%Z)
  else
    (if leb 10.0 hour && ltb hour 18.0 then 1%Z else 0%Z).

Definition simulate_occupancy (ts : datetime) (open_regime : Z)
  (academic_intensity : R) (rng : Rng) : R * Rng :=
  if (open_regime =? 0)%Z then (0.0%R, rng)
  else
    let hour := hour_of ts in
    let weekday := weekday ts in
    let daily_profile :=
      (0.6 * exp (- ((hour - 13.0) ^ 2) / (2 * 3.5 ^ 2))
       + 0.4 * exp (- ((hour - 18.0) ^ 2) / (2 * 2.8 ^ 2)))%R in
    let weekday_multiplier := if (weekday <=? 4)%Z then 1.0%R else 0.65%R in
    let base_capacity := (180.0 * academic_intensity)%R in
    let (noise, rng) := normalvariate 0.0 8.0 rng in
    let occ := (base_capacity * daily_profile * weekday_multiplier + noise)%R in
    (clamp occ 0.0 220.0, rng).

Definition temp_pressure (temp_out comfort_low comfort_high : R) : R :=
  if ltb temp_out comfort_low then (comfort_low - temp_out)%R
  else if ltb comfort_high temp_out then (temp_out - comfort_high)%R
  else 0.0%R.

(** One emitted record, its fields in the order of the dictionary literal. *)
Record Row : Type := mk_Row {
  timestamp : string;
  X1_occupancy : R;
  X2_temp_out : R;
  X2_temp_pressure : R;
  X3_open : R;
  X4_building_factor : R;
  X5_availability : R;
  M1_activation : R;
  Y_kwh : R
}.

(** The variables the loop of [simulate] updates. *)
Record LoopState : Type := mk_LoopState {
  st_rng : Rng;
  st_y_prev : R;
  st_rows : list Row
}.

Definition availability (cfg : SimConfig) (x3_open : Z) : R :=
  ((0.7 + 0.3 * IZR x3_open) * building_factor_x4 cfg)%R.

Definition activation (cfg : SimConfig) (x3_open : Z) (x1_occ x2_pressure : R) : R :=
  clamp ((regime_to_activation cfg * IZR x3_open
          + occ_to_activation cfg * x1_occ
          + temp_to_activation cfg * x2_pressure)
         * availability cfg x3_open)%R 0.0 2.0.

(** [y_det], the deterministic demand before inertia and noise. *)
Definition demand (cfg : SimConfig) (x3_open : Z) (m1_activation x2_pressure : R) : R :=
  let baseline :=
    if (x3_open =? 1)%Z then base_kwh_when_open cfg else base_kwh_when_closed cfg in
  let baseline := (baseline * building_factor_x4 cfg)%R in
  (baseline + activation_to_kwh cfg * m1_activation
   + direct_temp_to_kwh cfg * x2_pressure)%R.

(** The body of the loop [for ts in times]. *)
Definition simulate_step (cfg : SimConfig) (st : LoopState) (ts : datetime) : LoopState :=
  let x3_open := simulate_open_regime ts in
  let x2_temp_out := simulate_outdoor_temp ts 9.0 3.5 in
  let x2_pressure := temp_pressure x2_temp_out 20.0 23.0 in
  let (x1_occ, rng) := simulate_occupancy ts x3_open (academic_intensity cfg) (st_rng st) in
  let x5_availability := availability cfg x3_open in
  let m1_activation := activation cfg x3_open x1_occ x2_pressure in
  let y_det := demand cfg x3_open m1_activation x2_pressure in
  let (noise, rng) := normalvariate 0.0 (noise_sigma cfg) rng in
  let y_kwh :=
    (inertia_phi cfg * st_y_prev st + (1.0 - inertia_phi cfg) * y_det + noise)%R in
  let y_kwh := py_max 0.0 y_kwh in
  {| st_rng := rng;
     st_y_prev := y_kwh;
     st_rows :=
       st_rows st ++
       [ {| timestamp := isoformat ts;
            X1_occupancy := py_round x1_occ 3;
            X2_temp_out := py_round x2_temp_out 3;
            X2_temp_pressure := py_round x2_pressure 3;
            X3_open := IZR x3_open;
            X4_building_factor := py_round (building_factor_x4 cfg) 3;
            X5_availability := py_round x5_availability 3;
            M1_activation := py_round m1_activation 4;
            Y_kwh := py_round y_kwh 4 |} ] |}.

(** [int((24 * 60) / freq_minutes)]: true division, then truncation. *)
Definition steps_per_day_of (freq_minutes : Z) : result Z :=
  if (freq_minutes =? 0)%Z then Raise ZeroDivisionError
  else Ok (py_int (IZR (24 * 60) / IZR freq_minutes)).

Definition default_start : datetime := datetime_of 2025 1 1 0 0 0.

Section Simulate.

(** The standard normal variates of the library's generator, per seed. *)
Variable variates : Z -> nat -> R.

(** [simulate] up to its [return]: the loop's variables after the last step. *)
Definition simulate_run (cfg : SimConfig) (start : option datetime) : result LoopState :=
  let rng := seeded variates (seed cfg) in
  let start := match start with None => default_start | Some s => s end in
  steps_per_day <- steps_per_day_of (freq_minutes cfg) ;;
  let n_steps := (n_days cfg * steps_per_day)%Z in
  times <- generate_time_index start n_steps (freq_minutes cfg) ;;
  Ok (fold_left (simulate_step cfg) times
        {| st_rng := rng; st_y_prev := base_kwh_when_closed cfg; st_rows := [] |}).

(** The loop's variables before the first step. *)
Definition initial_state (cfg : SimConfig) : LoopState :=
  {| st_rng := seeded variates (seed cfg);
     st_y_prev := base_kwh_when_closed cfg;
     st_rows := [] |}.

Definition simulate (cfg : SimConfig) (start : option datetime) : result (list Row) :=
  st <- simulate_run cfg start ;; Ok (st_rows st).

End Simulate.

(** ** [simulate] with its generator as an object

    The same code with the generator where Python keeps it: an object of the
    heap, reached through the reference that [rng] holds and updated in place
    by [normalvariate]. The heap holds every generator object of the process:
    the one of the [random] module, those of other runs. *)

Module Heap.

Definition ref : Type := nat.
Definition heap : Type := list Rng.

Definition null_rng : Rng := mk_rng (fun _ => 0%R) 0.

(** A new object, at the first free address. *)
Definition alloc (g : Rng) (h : heap) : ref * heap := (List.length h, h ++ [g]).

Definition load (h : heap) (r : ref) : Rng := nth r h null_rng.

Definition store (h : heap) (r : ref) (g : Rng) : heap :=
  firstn r h ++ g :: skipn (S r) h.

End Heap.

Import Heap.

(** [rng.normalvariate(mu, sigma)] through the reference [rng]. *)
Definition normalvariate_ref (rng : ref) (mu sigma : R) (h : heap) : R * heap :=
  let (x, g) := normalvariate mu sigma (load h rng) in
  (x, store h rng g).

Definition simulate_occupancy_ref (ts : datetime) (open_regime : Z)
  (academic_intensity : R) (rng : ref) (h : heap) : R * heap :=
  if (open_regime =? 0)%Z then (0.0%R, h)
  else
    let hour := hour_of ts in
    let weekday := weekday ts in
    let daily_profile :=
      (0.6 * exp (- ((hour - 13.0) ^ 2) / (2 * 3.5 ^ 2))
       + 0.4 * exp (- ((hour - 18.0) ^ 2) / (2 * 2.8 ^ 2)))%R in
    let weekday_multiplier := if (weekday <=? 4)%Z then 1.0%R else 0.65%R in
    let base_capacity := (180.0 * academic_intensity)%R in
    let (noise, h) := normalvariate_ref rng 0.0 8.0 h in
    let occ := (base_capacity * daily_profile * weekday_multiplier + noise)%R in
    (clamp occ 0.0 220.0, h).

(** The local variables [y_prev] and [rows] of [simulate], and the heap. *)
Record Frame : Type := mk_Frame {
  fr_y_prev : R;
  fr_rows : list Row;
  fr_heap : heap
}.

(** The body of the loop, [rng] being the reference of the generator. *)
Definition simulate_step_ref (cfg : SimConfig) (rng : ref) (fr : Frame) (ts : datetime)
  : Frame :=
  let x3_open := simulate_open_regime ts in
  let x2_temp_out := simulate_outdoor_temp ts 9.0 3.5 in
  let x2_pressure := temp_pressure x2_temp_out 20.0 23.0 in
  let (x1_occ, h) :=
    simulate_occupancy_ref ts x3_open (academic_intensity cfg) rng (fr_heap fr) in
  let x5_availability := availability cfg x3_open in
  let m1_activation := activation cfg x3_open x1_occ x2_pressure in
  let y_det := demand cfg x3_open m1_activation x2_pressure in
  let (noise, h) := normalvariate_ref rng 0.0 (noise_sigma cfg) h in
  let y_kwh :=
    (inertia_phi cfg * fr_y_prev fr + (1.0 - inertia_phi cfg) * y_det + noise)%R in
  let y_kwh := py_max 0.0 y_kwh in
  {| fr_y_prev := y_kwh;
     fr_rows :=
       fr_rows fr ++
       [ {| timestamp := isoformat ts;
            X1_occupancy := py_round x1_occ 3;
            X2_temp_out := py_round x2_temp_out 3;
            X2_temp_pressure := py_round x2_pressure 3;
            X3_open := IZR x3_open;
            X4_building_factor := py_round (building_factor_x4 cfg) 3;
            X5_availability := py_round x5_availability 3;
            M1_activation := py_round m1_activation 4;
            Y_kwh := py_round y_kwh 4 |} ];
     fr_heap := h |}.

Section SimulateRef.

Variable variates : Z -> nat -> R.

(** [simulate(cfg, start)] called with the heap [h]: what it returns or
    raises, and the heap it leaves. *)
Definition simulate_ref (cfg : SimConfig) (start : option datetime) (h : heap)
  : result (list Row) * heap :=
  let (rng, h) := alloc (seeded variates (seed cfg)) h in
  let start := match start with None => default_start | Some s => s end in
  match steps_per_day_of (freq_minutes cfg) with
  | Raise e => (Raise e, h)
  | Ok steps_per_day =>
      let n_steps := (n_days cfg * steps_per_day)%Z in
      match generate_time_index start n_steps (freq_minutes cfg) with
      | Raise e => (Raise e, h)
      | Ok times =>
          let fr :=
            fold_left (simulate_step_ref cfg rng) times
              {| fr_y_prev := base_kwh_when_closed cfg; fr_rows := []; fr_heap := h |} in
          (Ok (fr_rows fr), fr_heap fr)
      end
  end.

End SimulateRef.

(** The local variables and the heap that hold the loop's variables [st],
    the generator being the last object of the heap, after those of [h]. *)
Definition frame_of (h : heap) (st : LoopState) : Frame :=
  {| fr_y_prev := st_y_prev st; fr_rows := st_rows st; fr_heap := h ++ [st_rng st] |}.

(** ** The quantities of one loop iteration

    Names for the intermediate values of the body of the loop, as functions of
    the loop's variables [st] before the step and of the timestamp. *)

(** [x1_occ] before rounding, with the generator it leaves. *)
Definition step_occupancy (cfg : SimConfig) (st : LoopState) (ts : datetime) : R * Rng :=
  simulate_occupancy ts (simulate_open_regime ts) (academic_intensity cfg) (st_rng st).

(** [x2_pressure] *)
Definition step_pressure (ts : datetime) : R :=
  temp_pressure (simulate_outdoor_temp ts 9.0 3.5) 20.0 23.0.

(** [m1_activation] before rounding. *)
Definition step_activation (cfg : SimConfig) (st : LoopState) (ts : datetime) : R :=
  activation cfg (simulate_open_regime ts) (fst (step_occupancy cfg st ts))
    (step_pressure ts).

(** [y_det] *)
Definition step_demand (cfg : SimConfig) (st : LoopState) (ts : datetime) : R :=
  demand cfg (simulate_open_regime ts) (step_activation cfg st ts) (step_pressure ts).

(** [noise], the second draw of the step. *)
Definition step_noise (cfg : SimConfig) (st : LoopState) (ts : datetime) : R :=
  fst (normalvariate 0.0 (noise_sigma cfg) (snd (step_occupancy cfg st ts))).

(** The record appended by the step. *)
Definition step_row (cfg : SimConfig) (st : LoopState) (ts : datetime) : Row :=
  last (st_rows (simulate_step cfg st ts))
       (mk_Row EmptyString 0 0 0 0 0 0 0 0).

(** How many variates a step at [ts] reads. *)
Definition step_draws (ts : datetime) : nat :=
  if (simulate_open_regime ts =? 0)%Z then 1%nat else 2%nat.

Definition run_draws (times : list datetime) : nat :=
  list_sum (map step_draws times).

(** The time grid: [start], [start + step], ..., [n] points in all. *)
Definition grid (start : datetime) (n step_minutes : Z) : list datetime :=
  map (fun i => mk_datetime (since_min_us start + step_minutes * US_PER_MINUTE * i)%Z)
      (range n).

(** The last point of the grid of [cfg] from [start] is not after
    9999-12-31. *)
Definition grid_representable (cfg : SimConfig) (start : datetime) : Prop :=
  (since_min_us start + (n_days cfg * (24 * 60) - freq_minutes cfg) * US_PER_MINUTE
   < MAXORDINAL * US_PER_DAY)%Z.

(** The origin of the grid: [start], or 2025-01-01T00:00:00 for [None]. *)
Definition start_or_default (start : option datetime) : datetime :=
  match start with None => default_start | Some s => s end.

(** The number of steps [simulate] computes for [cfg], given that
    [freq_minutes] divides a day. *)
Definition n_steps_of (cfg : SimConfig) : Z :=
  (n_days cfg * ((24 * 60) / freq_minutes cfg))%Z.

(** Two generators that yield the same variates from where they stand. *)
Definition rng_equiv (a b : Rng) : Prop :=
  rng_pos a = rng_pos b /\ forall k : nat, rng_seq a k = rng_seq b k.

(** Loop variables that differ at most by the representation of the
    generator. *)
Definition state_equiv (a b : LoopState) : Prop :=
  rng_equiv (st_rng a) (st_rng b) /\
  st_y_prev a = st_y_prev b /\
  st_rows a = st_rows b.

(** ** [write_csv] *)

Module Csv.

(** A value of a record's dictionary. *)
Inductive cell : Type :=
| CStr (s : string)
| CNum (x : R).

(** A dictionary in insertion order. *)
Definition dict : Type := list (string * cell).

Definition keys (d : dict) : list string := map fst d.

Fixpoint get (d : dict) (k : string) : option cell :=
  match d with
  | [] => None
  | (k', v) :: d' => if String.eqb k k' then Some v else get d' k
  end.

Definition mem (k : string) (ks : list string) : bool := existsb (String.eqb k) ks.

(** [DictWriter._dict_to_list]: a key outside [fieldnames] raises
    [ValueError]; a missing one is written as the empty string. *)
Definition dict_to_list (fieldnames : list string) (rowdict : dict) : result (list cell) :=
  if forallb (fun k => mem k fieldnames) (keys rowdict)
  then Ok (map (fun k => match get rowdict k with
                         | Some v => v
                         | None => CStr ""
                         end) fieldnames)
  else Raise ValueError.

(** The file as the list of the records written to it so far, each a list of
    fields. *)
Definition file : Type := list (list cell).

(** [DictWriter.writerows]: rows are written one by one until one raises. *)
Fixpoint writerows (fieldnames : list string) (rows : list dict) (f : file)
  : file * result unit :=
  match rows with
  | [] => (f, Ok tt)
  | r :: rows' =>
      match dict_to_list fieldnames r with
      | Ok fields => writerows fieldnames rows' (f ++ [fields])
      | Raise e => (f, Raise e)
      end
  end.

(** [DictWriter.writeheader]: the field names, as one record. *)
Definition writeheader (fieldnames : list string) (f : file) : file :=
  f ++ [map CStr fieldnames].

End Csv.

Import Csv.

(** The dictionary [simulate] appends for a row. *)
Definition row_dict (r : Row) : dict :=
  [ ("timestamp", CStr (timestamp r));
    ("X1_occupancy", CNum (X1_occupancy r));
    ("X2_temp_out", CNum (X2_temp_out r));
    ("X2_temp_pressure", CNum (X2_temp_pressure r));
    ("X3_open", CNum (X3_open r));
    ("X4_building_factor", CNum (X4_building_factor r));
    ("X5_availability", CNum (X5_availability r));
    ("M1_activation", CNum (M1_activation r));
    ("Y_kwh", CNum (Y_kwh r)) ]%string.

(** [os.path.dirname] of [posixpath]: the part of the path before its last
    slash, without trailing slashes unless it is made of slashes only; empty
    for a path without slash. *)
Definition is_sep (c : ascii) : bool := Ascii.eqb c "/"%char.

Fixpoint upto_last_sep (p : string) : string :=
  match p with
  | EmptyString => EmptyString
  | String c rest =>
      match upto_last_sep rest with
      | EmptyString => if is_sep c then String c EmptyString else EmptyString
      | head => String c head
      end
  end.

Fixpoint all_sep (p : string) : bool :=
  match p with
  | EmptyString => true
  | String c rest => is_sep c && all_sep rest
  end.

Fixpoint rstrip_sep (p : string) : string :=
  match p with
  | EmptyString => EmptyString
  | String c rest =>
      match rstrip_sep rest with
      | EmptyString => if is_sep c then EmptyString else String c EmptyString
      | rest' => String c rest'
      end
  end.

Definition dirname (p : string) : string :=
  let head := upto_last_sep p in
  if negb (String.eqb head "") && negb (all_sep head) then rstrip_sep head else head.

Section WriteCsv.

(** What the file system answers: [os.makedirs(name, exist_ok=True)] for a
    name that is not empty, and [open(out_path, "w", ...)]. *)
Variable fs_makedirs : string -> result unit.
Variable fs_open : string -> result unit.

(** [os.makedirs(name, exist_ok=True)]: the empty name raises
    [FileNotFoundError]. *)
Definition makedirs (name : string) : result unit :=
  if String.eqb name "" then Raise FileNotFoundError else fs_makedirs name.

(** [write_csv(rows, out_path)]: the content of the file when the function
    exits ([None] when the file was not opened) and whether it returned or
    raised. *)
Definition write_csv (rows : list dict) (out_path : string) : option file * result unit :=
  match makedirs (dirname out_path) with
  | Raise e => (None, Raise e)
  | Ok _ =>
      let fieldnames := match rows with r :: _ => keys r | [] => [] end in
      match fs_open out_path with
      | Raise e => (None, Raise e)
      | Ok _ =>
          let f := writeheader fieldnames [] in
          let (f, outcome) := writerows fieldnames rows f in
          (Some f, outcome)
      end
  end.

End WriteCsv.

(** A file system that grants every request. *)
Definition fs_grant (name : string) : result unit := Ok tt.

(** The columns of the simulator's output, in the order of the
    specification. *)
Definition field_names : list string :=
  [ "timestamp"; "X1_occupancy"; "X2_temp_out"; "X2_temp_pressure"; "X3_open";
    "X4_building_factor"; "X5_availability"; "M1_activation"; "Y_kwh" ]%string.

(** The values of a record, in the order of its fields. *)
Definition row_cells (r : Row) : list cell := map snd (row_dict r).

(** The fields written for [rowdict] under the header [fieldnames]: the value
    of each column's key, or the empty string when the key is missing. *)
Definition fields_of (fieldnames : list string) (rowdict : dict) : list cell :=
  map (fun k => match get rowdict k with
                | Some v => v
                | None => CStr ""
                end) fieldnames.

(** ** [build_features.py]: the comfort-pressure column *)

(** [Series.clip(lower=0)], elementwise. *)
Definition clip_lower (lower : R) (s : list R) : list R :=
  map (fun x => if ltb x lower then lower else x) s.

(** Elementwise [low - s], [s - high] and sum of two series of one index. *)
Definition rsub_scalar (low : R) (s : list R) : list R := map (fun x => (low - x)%R) s.
Definition sub_scalar (s : list R) (high : R) : list R := map (fun x => (x - high)%R) s.
Definition series_add (a b : list R) : list R :=
  map (fun p => (fst p + snd p)%R) (combine a b).

Definition _temp_pressure (temp_out : list R) (low high : R) : list R :=
  let below := clip_lower 0 (rsub_scalar low temp_out) in
  let above := clip_lower 0 (sub_scalar temp_out high) in
  series_add below above.

Record FeatureConfig : Type := mk_FeatureConfig {
  freq : string;
  tz : option string;
  comfort_low : R;
  comfort_high : R;
  add_y_lags : bool;
  y_lags : list Z
}.

(** [FeatureConfig()], every field at its default. *)
Definition default_feature_config : FeatureConfig :=
  {| freq := "1H";
     tz := None;
     comfort_low := 20.0;
     comfort_high := 23.0;
     add_y_lags := true;
     y_lags := [1; 24]%Z |}.

(** The column [X2_temp_pressure] that [build_from_simulated] derives. *)
Definition feature_temp_pressure (cfg : FeatureConfig) (temp_out : list R) : list R :=
  _temp_pressure temp_out (comfort_low cfg) (comfort_high cfg).

(** ** [build_features.py]: lag columns and incomplete rows

    The end of [build_from_simulated], from the resampled table [out] to the
    table it returns. A table is its index and its columns in insertion
    order; a cell is [None] where pandas holds NaN. *)

Module Pandas.

Definition series : Type := list (option R).

Record DataFrame : Type := mk_DataFrame {
  df_index : list datetime;
  df_columns : list (string * series)
}.

(** [df[name]]; [None] stands for [KeyError]. *)
Fixpoint lookup_column (cols : list (string * series)) (name : string) : option series :=
  match cols with
  | [] => None
  | (n, c) :: cols' => if String.eqb n name then Some c else lookup_column cols' name
  end.

Definition get_column (df : DataFrame) (name : string) : option series :=
  lookup_column (df_columns df) name.

(** [df[name] = s]: the column is replaced where it stands, or appended. *)
Fixpoint assign_column (cols : list (string * series)) (name : string) (s : series)
  : list (string * series) :=
  match cols with
  | [] => [(name, s)]
  | (n, c) :: cols' =>
      if String.eqb n name then (n, s) :: cols'
      else (n, c) :: assign_column cols' name s
  end.

Definition set_column (df : DataFrame) (name : string) (s : series) : DataFrame :=
  {| df_index := df_index df; df_columns := assign_column (df_columns df) name s |}.

(** [s.shift(periods)]: position [i] takes the value of position
    [i - periods], NaN when there is none. *)
Definition shift (periods : Z) (s : series) : series :=
  map (fun i =>
         let j := (Z.of_nat i - periods)%Z in
         if ((0 <=? j) && (j <? Z.of_nat (List.length s)))%Z
         then nth (Z.to_nat j) s None
         else None)
      (seq 0 (List.length s)).

Definition present (c : option R) : bool :=
  match c with Some _ => true | None => false end.

(** Row [i] has no NaN. *)
Definition row_complete (df : DataFrame) (i : nat) : bool :=
  forallb (fun c => present (nth i (snd c) None)) (df_columns df).

(** The positions of the rows [dropna] keeps, in order. *)
Definition kept_rows (df : DataFrame) : list nat :=
  filter (row_complete df) (seq 0 (List.length (df_index df))).

(** [df.dropna()] *)
Definition dropna (df : DataFrame) : DataFrame :=
  let kept := kept_rows df in
  {| df_index := map (fun i => nth i (df_index df) (mk_datetime 0)) kept;
     df_columns :=
       map (fun c => (fst c, map (fun i => nth i (snd c) None) kept)) (df_columns df) |}.

End Pandas.

Import Pandas.

(** [f"Y_lag_{lag}"] *)
Definition lag_name (lag : Z) : string :=
  ("Y_lag_" ++ DecimalString.NilZero.string_of_int (Z.to_int lag))%string.

(** One turn of [for lag in cfg.y_lags]. *)
Definition add_lag (acc : option DataFrame) (lag : Z) : option DataFrame :=
  match acc with
  | None => None
  | Some out =>
      match get_column out "Y_kwh" with
      | None => None
      | Some y => Some (set_column out (lag_name lag) (shift lag y))
      end
  end.

(** [build_from_simulated] after [out = out.resample(cfg.freq).mean()]: the
    lag columns, then [dropna]; [None] stands for [KeyError]. *)
Definition lagged_features (cfg : FeatureConfig) (out : DataFrame) : option DataFrame :=
  let out :=
    if add_y_lags cfg then fold_left add_lag (y_lags cfg) (Some out) else Some out in
  match out with
  | None => None
  | Some out => Some (dropna out)
  end.

(** Every column is as long as the index. *)
Definition well_formed (df : DataFrame) : Prop :=
  Forall (fun c => List.length (snd c) = List.length (df_index df)) (df_columns df).

(** No cell is NaN. *)
Definition complete (df : DataFrame) : Prop :=
  Forall (fun c => Forall (fun x => present x = true) (snd c)) (df_columns df).

(** The largest of the lags, 0 for none. *)
Definition max_lag (lags : list Z) : Z := fold_right Z.max 0%Z lags.

(** A resampled table of [n] hourly rows without gaps, [Y_kwh] counting the
    rows. *)
Definition sample_table (n : nat) : DataFrame :=
  {| df_index := map (fun i => mk_datetime (Z.of_nat i * US_PER_HOUR)) (seq 0 n);
     df_columns :=
       [ ("Y_kwh", map (fun i => Some (INR i)) (seq 0 n));
         ("X1_occupancy_proxy", map (fun _ => Some 0%R) (seq 0 n));
         ("X2_temp_out", map (fun _ => Some 8%R) (seq 0 n));
         ("X2_temp_pressure", map (fun _ => Some 12%R) (seq 0 n));
         ("X3_open", map (fun _ => Some 1%R) (seq 0 n)) ]%string |}.

(** ** Sample inputs *)

(** [dataclasses.replace(cfg, n_days=..., freq_minutes=...)] *)
Definition with_grid (cfg : SimConfig) (days freq : Z) : SimConfig :=
  {| seed := seed cfg;
     freq_minutes := freq;
     n_days := days;
     building_factor_x4 := building_factor_x4 cfg;
     base_kwh_when_closed := base_kwh_when_closed cfg;
     base_kwh_when_open := base_kwh_when_open cfg;
     occ_to_activation := occ_to_activation cfg;
     temp_to_activation := temp_to_activation cfg;
     regime_to_activation := regime_to_activation cfg;
     activation_to_kwh := activation_to_kwh cfg;
     direct_temp_to_kwh := direct_temp_to_kwh cfg;
     inertia_phi := inertia_phi cfg;
     noise_sigma := noise_sigma cfg;
     academic_intensity := academic_intensity cfg |}.

(** [dataclasses.replace(cfg, inertia_phi=...)] *)
Definition with_inertia (cfg : SimConfig) (phi : R) : SimConfig :=
  {| seed := seed cfg;
     freq_minutes := freq_minutes cfg;
     n_days := n_days cfg;
     building_factor_x4 := building_factor_x4 cfg;
     base_kwh_when_closed := base_kwh_when_closed cfg;
     base_kwh_when_open := base_kwh_when_open cfg;
     occ_to_activation := occ_to_activation cfg;
     temp_to_activation := temp_to_activation cfg;
     regime_to_activation := regime_to_activation cfg;
     activation_to_kwh := activation_to_kwh cfg;
     direct_temp_to_kwh := direct_temp_to_kwh cfg;
     inertia_phi := phi;
     noise_sigma := noise_sigma cfg;
     academic_intensity := academic_intensity cfg |}.

(** A record of the shape [simulate] returns. *)
Definition sample_row : Row :=
  {| timestamp := "2025-01-01T00:00:00";
     X1_occupancy := 0;
     X2_temp_out := 3.25;
     X2_temp_pressure := 16.75;
     X3_open := 0;
     X4_building_factor := 1.1;
     X5_availability := 0.77;
     M1_activation := 0.774;
     Y_kwh := 9.5 |}.

(** A generator whose variates, whatever the seed, are those of the list [l],
    then zeros. *)
Definition variates_of_list (l : list R) : Z -> nat -> R :=
  fun _ k => nth k l 0%R.

(** A generator that yields the variates of [l] for the seed 123 only. *)
Definition variates_for_123 (l : list R) : Z -> nat -> R :=
  fun s k => if (s =? 123)%Z then nth k l 0%R else 1%R.

(** The temperature of 2025-01-01 at a whole hour [h]. *)
Definition new_year_temp (h : Z) : R :=
  simulate_outdoor_temp (datetime_of 2025 1 1 h 0 0) 9.0 3.5.

(** ** Reference definitions of the specification *)

(** Monday to Friday, and Saturday or Sunday. *)
Definition is_weekday (ts : datetime) : Prop := (0 <= weekday ts <= 4)%Z.
Definition is_weekend (ts : datetime) : Prop := (5 <= weekday ts <= 6)%Z.

(** The time of day of [ts] lies in the half-open interval [[a:00, b:00)]. *)
Definition time_in (ts : datetime) (a b : Z) : Prop :=
  (a * US_PER_HOUR <= time_of_day_us ts < b * US_PER_HOUR)%Z.

(** The schedule of the specification: open on weekdays in [[08:00, 22:00)]
    and on weekends in [[10:00, 18:00)]. *)
Definition scheduled_open (ts : datetime) : Prop :=
  (is_weekday ts /\ time_in ts 8 22) \/ (is_weekend ts /\ time_in ts 10 18).

(** The same schedule as a test on integers. *)
Definition scheduled_openb (ts : datetime) : bool :=
  let t := time_of_day_us ts in
  if (weekday ts <=? 4)%Z
  then ((8 * US_PER_HOUR <=? t) && (t <? 22 * US_PER_HOUR))%Z
  else ((10 * US_PER_HOUR <=? t) && (t <? 18 * US_PER_HOUR))%Z.

(** The bounds the specification states for a record. *)
Definition record_ok (r : Row) : Prop :=
  (0 <= X1_occupancy r <= 220)%R /\
  (X3_open r = 0%R -> X1_occupancy r = 0%R) /\
  (0 <= M1_activation r <= 2)%R /\
  (0 <= Y_kwh r)%R.

(** * Properties *)

(** ** Floats as reals *)

Lemma ltb_true (x y : R) : ltb x y = true <-> (x < y)%R.
Proof.
  unfold ltb. destruct (Rlt_dec x y); split; intro; try easy.
Qed.

Lemma ltb_false (x y : R) : ltb x y = false <-> (y <= x)%R.
Proof.
  unfold ltb. destruct (Rlt_dec x y); split; intro; try easy; lra.
Qed.

Lemma leb_true (x y : R) : leb x y = true <-> (x <= y)%R.
Proof.
  unfold leb. destruct (Rle_dec x y); split; intro; try easy.
Qed.

Lemma leb_false (x y : R) : leb x y = false <-> (y < x)%R.
Proof.
  unfold leb. destruct (Rle_dec x y); split; intro; try easy; lra.
Qed.

(** Case analysis on every float comparison met in the goal. *)
Ltac float_cases :=
  repeat match goal with
  | |- context [ltb ?a ?b] =>
      let H := fresh "Hlt" in
      destruct (ltb a b) eqn:H;
      [ apply ltb_true in H | apply ltb_false in H ]
  | |- context [leb ?a ?b] =>
      let H := fresh "Hle" in
      destruct (leb a b) eqn:H;
      [ apply leb_true in H | apply leb_false in H ]
  end.

Lemma py_max_Rmax (a b : R) : py_max a b = Rmax a b.
Proof.
  unfold py_max, Rmax. float_cases; destruct (Rle_dec a b); lra.
Qed.

Lemma py_min_Rmin (a b : R) : py_min a b = Rmin a b.
Proof.
  unfold py_min, Rmin. float_cases; destruct (Rle_dec a b); lra.
Qed.

Lemma py_max_lower (a b : R) : (a <= py_max a b)%R.
Proof. unfold py_max. float_cases; lra. Qed.

Lemma clamp_bounds (x lo hi : R) :
  (lo <= hi)%R -> (lo <= clamp x lo hi <= hi)%R.
Proof.
  intro H. unfold clamp, py_max, py_min. float_cases; lra.
Qed.

Lemma clamp_below (x lo hi : R) :
  (lo <= hi)%R -> (x <= lo)%R -> clamp x lo hi = lo.
Proof.
  intros H Hx. unfold clamp, py_max, py_min. float_cases; lra.
Qed.

Lemma Int_part_bounds (y : R) :
  (IZR (Int_part y) <= y < IZR (Int_part y) + 1)%R.
Proof.
  destruct (base_Int_part y) as [H1 H2]. lra.
Qed.

Lemma frac_part_eq (y : R) : frac_part y = (y - IZR (Int_part y))%R.
Proof. reflexivity. Qed.

(** Rounding to the nearest integer stays between any two integers that
    enclose the argument. *)
Lemma round_half_even_bounds (y : R) (a b : Z) :
  (IZR a <= y <= IZR b)%R ->
  (a <= round_half_even y <= b)%Z.
Proof.
  intros [Ha Hb].
  pose proof (Int_part_bounds y) as [Hf1 Hf2].
  assert (Hfa : (a <= Int_part y)%Z).
  { apply Z.lt_succ_r. apply lt_IZR. rewrite succ_IZR. lra. }
  assert (Hfb : (Int_part y <= b)%Z).
  { apply le_IZR. lra. }
  assert (Hup : (IZR (Int_part y) < y)%R -> (Int_part y + 1 <= b)%Z).
  { intro Hlt. apply Z.le_succ_l. apply lt_IZR. lra. }
  unfold round_half_even. rewrite frac_part_eq.
  float_cases.
  - lia.
  - split; [lia | apply Hup; lra].
  - destruct (Z.even (Int_part y)); [lia |].
    split; [lia | apply Hup; lra].
Qed.

Lemma pow10_pos (n : nat) : (0 < 10 ^ n)%R.
Proof. apply pow_lt. lra. Qed.

(** [round(x, n)] keeps [x] between two bounds that have at most [n]
    decimals. *)
Lemma py_round_bounds (x : R) (n : nat) (a b : Z) :
  (IZR a / 10 ^ n <= x <= IZR b / 10 ^ n)%R ->
  (IZR a / 10 ^ n <= py_round x n <= IZR b / 10 ^ n)%R.
Proof.
  intros [Ha Hb].
  pose proof (pow10_pos n) as Hp.
  assert (H : (IZR a <= x * 10 ^ n <= IZR b)%R).
  { split.
    - apply (Rmult_le_compat_r (10 ^ n)) in Ha; [| lra].
      unfold Rdiv in Ha. rewrite Rmult_assoc, Rinv_l, Rmult_1_r in Ha; lra.
    - apply (Rmult_le_compat_r (10 ^ n)) in Hb; [| lra].
      unfold Rdiv in Hb. rewrite Rmult_assoc, Rinv_l, Rmult_1_r in Hb; lra. }
  apply round_half_even_bounds in H. destruct H as [H1 H2].
  apply IZR_le in H1, H2.
  unfold py_round. split.
  - apply Rmult_le_compat_r; [| exact H1].
    apply Rlt_le, Rinv_0_lt_compat, Hp.
  - apply Rmult_le_compat_r; [| exact H2].
    apply Rlt_le, Rinv_0_lt_compat, Hp.
Qed.

Lemma py_round_range (x : R) (n : nat) (a b : Z) :
  (IZR a <= x <= IZR b)%R -> (IZR a <= py_round x n <= IZR b)%R.
Proof.
  intros [Ha Hb].
  pose proof (pow10_pos n) as Hp.
  assert (E : forall k : Z, IZR k = (IZR (k * 10 ^ Z.of_nat n) / 10 ^ n)%R).
  { intro k. rewrite mult_IZR.
    replace (IZR (10 ^ Z.of_nat n)) with (10 ^ n)%R.
    - field. lra.
    - rewrite <- pow_IZR. reflexivity. }
  rewrite (E a), (E b) in *. apply py_round_bounds. lra.
Qed.

Lemma py_round_nonneg (x : R) (n : nat) : (0 <= x)%R -> (0 <= py_round x n)%R.
Proof.
  intro Hx.
  pose proof (pow10_pos n) as Hp.
  pose proof (Int_part_bounds (x * 10 ^ n)) as [Hf1 Hf2].
  assert (H0 : (0 <= x * 10 ^ n)%R) by (apply Rmult_le_pos; lra).
  assert (Hfa : (0 <= Int_part (x * 10 ^ n))%Z).
  { apply Z.lt_succ_r. apply lt_IZR. rewrite succ_IZR. lra. }
  assert (Hr : (0 <= round_half_even (x * 10 ^ n))%Z).
  { unfold round_half_even. float_cases; try lia.
    destruct (Z.even _); lia. }
  apply IZR_le in Hr. unfold py_round.
  apply Rmult_le_pos; [exact Hr | apply Rlt_le, Rinv_0_lt_compat, Hp].
Qed.

Lemma py_round_0 (n : nat) : py_round 0 n = 0%R.
Proof.
  pose proof (py_round_range 0 n 0 0) as H.
  assert (H0 : (0 <= py_round 0 n <= 0)%R) by (apply H; lra).
  lra.
Qed.

Lemma py_round_IZR (k : Z) (n : nat) : py_round (IZR k) n = IZR k.
Proof.
  pose proof (py_round_range (IZR k) n k k) as H.
  assert (H0 : (IZR k <= py_round (IZR k) n <= IZR k)%R) by (apply H; lra).
  lra.
Qed.

(** ** The calendar *)

Example ordinal_2025 : ymd2ord 2025 1 1 = 739252%Z.
Proof. reflexivity. Qed.

Example isoformat_2025 :
  isoformat default_start = "2025-01-01T00:00:00"%string.
Proof. vm_compute. reflexivity. Qed.

Example isoformat_leap_day :
  isoformat (datetime_of 2024 2 29 13 5 7) = "2024-02-29T13:05:07"%string.
Proof. vm_compute. reflexivity. Qed.

Example isoformat_year_end :
  isoformat (datetime_of 2023 12 31 23 59 59) = "2023-12-31T23:59:59"%string.
Proof. vm_compute. reflexivity. Qed.

Example weekday_2025 : weekday default_start = 2%Z.
Proof. vm_compute. reflexivity. Qed.

Example tm_yday_leap : tm_yday (datetime_of 2024 12 31 0 0 0) = 366%Z.
Proof. vm_compute. reflexivity. Qed.

Example last_day_in_range : in_range (datetime_of 9999 12 31 23 59 59) = true.
Proof. vm_compute. reflexivity. Qed.

Example year_10000_out_of_range :
  add_minutes (datetime_of 9999 12 31 23 59 59) 1 1 = Raise OverflowError.
Proof. vm_compute. reflexivity. Qed.

Ltac unfold_time :=
  unfold hour, minute, second, microsecond, time_of_day_us, toordinal, weekday,
    US_PER_DAY, US_PER_HOUR, US_PER_MINUTE, US_PER_SECOND in *.

Lemma hour_range (ts : datetime) : (0 <= hour ts < 24)%Z.
Proof. unfold hour. apply Z.mod_pos_bound. lia. Qed.

Lemma minute_range (ts : datetime) : (0 <= minute ts < 60)%Z.
Proof. unfold minute. apply Z.mod_pos_bound. lia. Qed.

Lemma weekday_range (ts : datetime) : (0 <= weekday ts < 7)%Z.
Proof. unfold weekday. apply Z.mod_pos_bound. lia. Qed.

(** The time of day splits into the hour, the minute and what is left of the
    minute. *)
Lemma time_of_day_split (ts : datetime) :
  exists r : Z,
    (0 <= r < US_PER_MINUTE)%Z /\
    time_of_day_us ts = (hour ts * US_PER_HOUR + minute ts * US_PER_MINUTE + r)%Z.
Proof.
  exists (since_min_us ts mod US_PER_MINUTE)%Z.
  unfold_time. generalize (since_min_us ts). intro u.
  Z.div_mod_to_equations. lia.
Qed.

(** Comparing [hour_of ts] with a whole hour compares the [hour] field. *)
Lemma hour_of_ge (ts : datetime) (k : Z) :
  (IZR k <= hour_of ts)%R <-> (k <= hour ts)%Z.
Proof.
  pose proof (minute_range ts) as [Hm1 Hm2].
  apply IZR_le in Hm1. apply IZR_lt in Hm2.
  unfold hour_of. split; intro H.
  - apply Z.lt_succ_r. apply lt_IZR. rewrite succ_IZR. lra.
  - apply IZR_le in H. lra.
Qed.

Lemma hour_of_lt (ts : datetime) (k : Z) :
  (hour_of ts < IZR k)%R <-> (hour ts < k)%Z.
Proof.
  pose proof (minute_range ts) as [Hm1 Hm2].
  apply IZR_le in Hm1. apply IZR_lt in Hm2.
  unfold hour_of. split; intro H.
  - apply lt_IZR. lra.
  - apply Z.le_succ_l in H. apply IZR_le in H. rewrite succ_IZR in H. lra.
Qed.

Lemma hour_time_ge (ts : datetime) (k : Z) :
  (k <= hour ts)%Z <-> (k * US_PER_HOUR <= time_of_day_us ts)%Z.
Proof.
  destruct (time_of_day_split ts) as [r [Hr E]]. rewrite E.
  pose proof (minute_range ts). unfold_time. lia.
Qed.

Lemma hour_time_lt (ts : datetime) (k : Z) :
  (hour ts < k)%Z <-> (time_of_day_us ts < k * US_PER_HOUR)%Z.
Proof.
  destruct (time_of_day_split ts) as [r [Hr E]]. rewrite E.
  pose proof (minute_range ts). unfold_time. lia.
Qed.

(** ** The open/closed regime *)

Lemma float_window (ts : datetime) (a b : Z) :
  leb (IZR a) (hour_of ts) && ltb (hour_of ts) (IZR b)
  = ((a * US_PER_HOUR <=? time_of_day_us ts)
     && (time_of_day_us ts <? b * US_PER_HOUR))%Z.
Proof.
  apply eq_true_iff_eq.
  rewrite !andb_true_iff, leb_true, ltb_true, Z.leb_le, Z.ltb_lt.
  rewrite hour_of_ge, hour_of_lt, hour_time_ge, hour_time_lt. reflexivity.
Qed.

Lemma simulate_open_regime_schedule (ts : datetime) :
  simulate_open_regime ts = if scheduled_openb ts then 1%Z else 0%Z.
Proof.
  unfold simulate_open_regime, scheduled_openb.
  replace 8.0%R with (IZR 8) by lra. replace 22.0%R with (IZR 22) by lra.
  replace 10.0%R with (IZR 10) by lra. replace 18.0%R with (IZR 18) by lra.
  rewrite !float_window. destruct (weekday ts <=? 4)%Z; reflexivity.
Qed.

Lemma scheduled_openb_iff (ts : datetime) :
  scheduled_openb ts = true <-> scheduled_open ts.
Proof.
  pose proof (weekday_range ts) as Hw.
  unfold scheduled_openb, scheduled_open, is_weekday, is_weekend, time_in.
  destruct (Z.leb_spec (weekday ts) 4);
    rewrite andb_true_iff, Z.leb_le, Z.ltb_lt; intuition lia.
Qed.

Lemma regime_values (ts : datetime) :
  simulate_open_regime ts = 1%Z \/ simulate_open_regime ts = 0%Z.
Proof.
  rewrite simulate_open_regime_schedule. destruct (scheduled_openb ts); auto.
Qed.

(** Evaluation of the regime at a given timestamp. *)
Ltac regime_eval :=
  rewrite simulate_open_regime_schedule; vm_compute; reflexivity.

Lemma regime_midnight : simulate_open_regime default_start = 0%Z.
Proof. regime_eval. Qed.

Lemma regime_noon : simulate_open_regime (datetime_of 2025 1 1 12 0 0) = 1%Z.
Proof. regime_eval. Qed.

Lemma regime_eight : simulate_open_regime (datetime_of 2025 1 1 8 0 0) = 1%Z.
Proof. regime_eval. Qed.

(** C9. [simulate_open_regime] returns 1 exactly on weekdays in
    [[08:00, 22:00)] and on weekends in [[10:00, 18:00)], and 0 at every other
    time; it is 1 on Wednesday 2025-01-01 at 09:00 and on Saturday 2025-01-04 at
    11:00, and 0 on that Wednesday at 23:00 and on that Saturday at 09:00. *)
Theorem regime_schedule :
  (forall ts : datetime,
      (simulate_open_regime ts = 1%Z <-> scheduled_open ts) /\
      (simulate_open_regime ts = 0%Z <-> ~ scheduled_open ts)) /\
  (weekday (datetime_of 2025 1 1 9 0 0) = 2%Z /\
   simulate_open_regime (datetime_of 2025 1 1 9 0 0) = 1%Z) /\
  (weekday (datetime_of 2025 1 1 23 0 0) = 2%Z /\
   simulate_open_regime (datetime_of 2025 1 1 23 0 0) = 0%Z) /\
  (weekday (datetime_of 2025 1 4 11 0 0) = 5%Z /\
   simulate_open_regime (datetime_of 2025 1 4 11 0 0) = 1%Z) /\
  (weekday (datetime_of 2025 1 4 9 0 0) = 5%Z /\
   simulate_open_regime (datetime_of 2025 1 4 9 0 0) = 0%Z).
Proof.
  split.
  - intro ts. rewrite simulate_open_regime_schedule, <- scheduled_openb_iff.
    destruct (scheduled_openb ts); split; split; intro H;
      try discriminate; try reflexivity; easy.
  - repeat split; try (vm_compute; reflexivity);
      rewrite simulate_open_regime_schedule; vm_compute; reflexivity.
Qed.

(** ** Comfort pressure *)

Lemma temp_pressure_cases (t low high : R) :
  (low <= high)%R ->
  temp_pressure t low high = (Rmax 0 (low - t) + Rmax 0 (t - high))%R.
Proof.
  intro H. unfold temp_pressure, Rmax.
  float_cases; destruct (Rle_dec 0 (low - t)); destruct (Rle_dec 0 (t - high)); lra.
Qed.

Lemma _temp_pressure_map (s : list R) (low high : R) :
  _temp_pressure s low high
  = map (fun t => ((if ltb (low - t) 0 then 0 else low - t)
                   + (if ltb (t - high) 0 then 0 else t - high))%R) s.
Proof.
  unfold _temp_pressure, series_add, clip_lower, rsub_scalar, sub_scalar.
  induction s as [| t s IH]; [reflexivity |].
  cbn [map combine fst snd]. f_equal. exact IH.
Qed.

(** C8. For a comfort band with [low <= high], the feature builder's
    [_temp_pressure] gives, at every temperature of the series, the value of
    the simulator's [temp_pressure]. *)
Theorem temp_pressure_agree (s : list R) (low high : R) :
  (low <= high)%R ->
  _temp_pressure s low high = map (fun t => temp_pressure t low high) s.
Proof.
  intro H. rewrite _temp_pressure_map. apply map_ext. intro t.
  unfold temp_pressure. float_cases; lra.
Qed.

(** The two components at their defaults, on the temperatures 18, 21 and 25. *)
Lemma temp_pressure_agree_defaults :
  (comfort_low default_feature_config <= comfort_high default_feature_config)%R /\
  feature_temp_pressure default_feature_config [18; 21; 25]%R
  = map (fun t => temp_pressure t 20.0 23.0) [18; 21; 25]%R.
Proof.
  split.
  - cbn [comfort_low comfort_high default_feature_config]. lra.
  - apply (temp_pressure_agree [18; 21; 25]%R 20.0 23.0). lra.
Defined.

Example temp_pressure_above : temp_pressure 25 20 23 = 2%R.
Proof. unfold temp_pressure. float_cases; lra. Qed.

Example temp_pressure_below : temp_pressure 18 20 23 = 2%R.
Proof. unfold temp_pressure. float_cases; lra. Qed.

Example temp_pressure_inside : temp_pressure 21 20 23 = 0%R.
Proof. unfold temp_pressure. float_cases; lra. Qed.

Lemma temp_pressure_nonneg (t low high : R) : (0 <= temp_pressure t low high)%R.
Proof. unfold temp_pressure. float_cases; lra. Qed.

(** ** Outdoor temperature *)

Lemma simulate_outdoor_temp_formula (ts : datetime) :
  simulate_outdoor_temp ts 9.0 3.5
  = (8.0 + 9.0 * sin (2 * PI * (IZR (tm_yday ts) / 365.0))
     + 3.5 * sin (2 * PI * ((hour_of ts - 5.0) / 24.0)))%R.
Proof. reflexivity. Qed.

Lemma sin_5PI6 : sin (5 * (PI / 6)) = (1 / 2)%R.
Proof.
  replace (5 * (PI / 6))%R with (PI - PI / 6)%R by lra.
  rewrite sin_PI_x. apply sin_PI6.
Qed.

Lemma new_year_fields (h : Z) :
  (0 <= h < 24)%Z ->
  tm_yday (datetime_of 2025 1 1 h 0 0) = 1%Z /\
  hour (datetime_of 2025 1 1 h 0 0) = h /\
  minute (datetime_of 2025 1 1 h 0 0) = 0%Z.
Proof.
  intro H.
  assert (C : In h (map Z.of_nat (seq 0 24))).
  { replace h with (Z.of_nat (Z.to_nat h)) by lia.
    apply in_map, in_seq. lia. }
  revert C. generalize h. apply Forall_forall.
  repeat constructor; vm_compute; reflexivity.
Qed.

(** C7. The daily term of [simulate_outdoor_temp] is 0 at 05:00, lowest at
    23:00 and highest at 11:00: on 2025-01-01 the temperature at 23:00 is 3.5
    below that at 05:00, the temperature at 11:00 is 3.5 above it, and the
    temperature at 15:00 only 1.75 above it. *)
Theorem outdoor_temp_daily_extremes :
  new_year_temp 23 = (new_year_temp 5 - 3.5)%R /\
  new_year_temp 11 = (new_year_temp 5 + 3.5)%R /\
  new_year_temp 15 = (new_year_temp 5 + 1.75)%R /\
  (new_year_temp 23 < new_year_temp 5)%R /\
  (new_year_temp 15 < new_year_temp 11)%R.
Proof.
  assert (E : forall h : Z, (0 <= h < 24)%Z ->
            new_year_temp h
            = (8.0 + 9.0 * sin (2 * PI * (1 / 365.0))
               + 3.5 * sin (2 * PI * ((IZR h - 5.0) / 24.0)))%R).
  { intros h Hh. unfold new_year_temp.
    rewrite simulate_outdoor_temp_formula. unfold hour_of.
    destruct (new_year_fields h Hh) as [-> [-> ->]].
    do 3 f_equal. lra. }
  rewrite (E 23%Z), (E 5%Z), (E 11%Z), (E 15%Z) by lia.
  replace (2 * PI * ((23 - 5.0) / 24.0))%R with (3 * (PI / 2))%R by lra.
  replace (2 * PI * ((5 - 5.0) / 24.0))%R with 0%R by lra.
  replace (2 * PI * ((11 - 5.0) / 24.0))%R with (PI / 2)%R by lra.
  replace (2 * PI * ((15 - 5.0) / 24.0))%R with (5 * (PI / 6))%R by lra.
  rewrite sin_3PI2, sin_0, sin_PI2, sin_5PI6.
  repeat split; lra.
Qed.

(** The daily term never leaves [[-3.5, 3.5]], so 23:00 and 11:00 are where it
    is extreme. *)
Lemma outdoor_temp_daily_range (ts : datetime) :
  let seasonal := (8.0 + 9.0 * sin (2 * PI * (IZR (tm_yday ts) / 365.0)))%R in
  (seasonal - 3.5 <= simulate_outdoor_temp ts 9.0 3.5 <= seasonal + 3.5)%R.
Proof.
  cbv zeta. rewrite simulate_outdoor_temp_formula.
  pose proof (SIN_bound (2 * PI * ((hour_of ts - 5.0) / 24.0))) as [H1 H2].
  lra.
Qed.

(** ** One step of the loop *)

Lemma simulate_step_unfold (cfg : SimConfig) (st : LoopState) (ts : datetime) :
  simulate_step cfg st ts
  = {| st_rng := snd (normalvariate 0.0 (noise_sigma cfg) (snd (step_occupancy cfg st ts)));
       st_y_prev :=
         py_max 0.0 (inertia_phi cfg * st_y_prev st
                     + (1.0 - inertia_phi cfg) * step_demand cfg st ts
                     + step_noise cfg st ts);
       st_rows :=
         st_rows st ++
         [ {| timestamp := isoformat ts;
              X1_occupancy := py_round (fst (step_occupancy cfg st ts)) 3;
              X2_temp_out := py_round (simulate_outdoor_temp ts 9.0 3.5) 3;
              X2_temp_pressure := py_round (step_pressure ts) 3;
              X3_open := IZR (simulate_open_regime ts);
              X4_building_factor := py_round (building_factor_x4 cfg) 3;
              X5_availability := py_round (availability cfg (simulate_open_regime ts)) 3;
              M1_activation := py_round (step_activation cfg st ts) 4;
              Y_kwh :=
                py_round
                  (py_max 0.0 (inertia_phi cfg * st_y_prev st
                               + (1.0 - inertia_phi cfg) * step_demand cfg st ts
                               + step_noise cfg st ts)) 4 |} ] |}.
Proof.
  unfold simulate_step, step_noise, step_demand, step_activation, step_pressure,
    step_occupancy.
  destruct (simulate_occupancy ts (simulate_open_regime ts) (academic_intensity cfg)
              (st_rng st)) as [x1_occ rng].
  reflexivity.
Qed.

Lemma step_rows (cfg : SimConfig) (st : LoopState) (ts : datetime) :
  st_rows (simulate_step cfg st ts) = st_rows st ++ [step_row cfg st ts].
Proof.
  unfold step_row. rewrite simulate_step_unfold. cbn [st_rows].
  rewrite last_last. reflexivity.
Qed.

Lemma step_row_unfold (cfg : SimConfig) (st : LoopState) (ts : datetime) :
  step_row cfg st ts
  = {| timestamp := isoformat ts;
       X1_occupancy := py_round (fst (step_occupancy cfg st ts)) 3;
       X2_temp_out := py_round (simulate_outdoor_temp ts 9.0 3.5) 3;
       X2_temp_pressure := py_round (step_pressure ts) 3;
       X3_open := IZR (simulate_open_regime ts);
       X4_building_factor := py_round (building_factor_x4 cfg) 3;
       X5_availability := py_round (availability cfg (simulate_open_regime ts)) 3;
       M1_activation := py_round (step_activation cfg st ts) 4;
       Y_kwh := py_round (st_y_prev (simulate_step cfg st ts)) 4 |}.
Proof.
  unfold step_row. rewrite simulate_step_unfold. cbn [st_rows st_y_prev].
  rewrite last_last. reflexivity.
Qed.

Lemma step_y (cfg : SimConfig) (st : LoopState) (ts : datetime) :
  st_y_prev (simulate_step cfg st ts)
  = py_max 0.0 (inertia_phi cfg * st_y_prev st
                + (1.0 - inertia_phi cfg) * step_demand cfg st ts
                + step_noise cfg st ts).
Proof. rewrite simulate_step_unfold. reflexivity. Qed.

Lemma step_rng (cfg : SimConfig) (st : LoopState) (ts : datetime) :
  st_rng (simulate_step cfg st ts)
  = snd (normalvariate 0.0 (noise_sigma cfg) (snd (step_occupancy cfg st ts))).
Proof. rewrite simulate_step_unfold. reflexivity. Qed.

(** The occupancy of a closed step, and of an open one. *)
Lemma simulate_occupancy_closed (ts : datetime) (ai : R) (rng : Rng) :
  simulate_occupancy ts 0 ai rng = (0.0%R, rng).
Proof. reflexivity. Qed.

Lemma simulate_occupancy_open (ts : datetime) (x3 : Z) (ai : R) (rng : Rng) :
  x3 <> 0%Z ->
  simulate_occupancy ts x3 ai rng
  = (clamp (180.0 * ai
            * (0.6 * exp (- ((hour_of ts - 13.0) ^ 2) / (2 * 3.5 ^ 2))
               + 0.4 * exp (- ((hour_of ts - 18.0) ^ 2) / (2 * 2.8 ^ 2)))
            * (if (weekday ts <=? 4)%Z then 1.0 else 0.65)
            + (0.0 + rng_seq rng (rng_pos rng) * 8.0)) 0.0 220.0,
     {| rng_seq := rng_seq rng; rng_pos := S (rng_pos rng) |})%R.
Proof.
  intro H. unfold simulate_occupancy.
  destruct (Z.eqb_spec x3 0) as [E | _]; [contradiction | reflexivity].
Qed.

(** ** The draws of a step *)

Lemma step_occupancy_closed (cfg : SimConfig) (st : LoopState) (ts : datetime) :
  simulate_open_regime ts = 0%Z ->
  step_occupancy cfg st ts = (0.0%R, st_rng st).
Proof.
  intro H. unfold step_occupancy. rewrite H. apply simulate_occupancy_closed.
Qed.

Lemma step_occupancy_rng (cfg : SimConfig) (st : LoopState) (ts : datetime) :
  snd (step_occupancy cfg st ts)
  = {| rng_seq := rng_seq (st_rng st);
       rng_pos := (rng_pos (st_rng st) + (step_draws ts - 1))%nat |}.
Proof.
  unfold step_occupancy, step_draws.
  destruct (Z.eqb_spec (simulate_open_regime ts) 0) as [E | E].
  - rewrite E, simulate_occupancy_closed. cbn [snd Nat.sub].
    rewrite Nat.add_0_r. destruct (st_rng st). reflexivity.
  - rewrite (simulate_occupancy_open _ _ _ _ E). cbn [snd Nat.sub].
    rewrite Nat.add_1_r. reflexivity.
Qed.

Lemma step_rng_advance (cfg : SimConfig) (st : LoopState) (ts : datetime) :
  st_rng (simulate_step cfg st ts)
  = {| rng_seq := rng_seq (st_rng st);
       rng_pos := (rng_pos (st_rng st) + step_draws ts)%nat |}.
Proof.
  rewrite step_rng, step_occupancy_rng. unfold normalvariate. cbn [snd rng_seq rng_pos].
  f_equal. unfold step_draws.
  destruct (simulate_open_regime ts =? 0)%Z; cbn [Nat.sub]; lia.
Qed.

Lemma step_noise_draw (cfg : SimConfig) (st : LoopState) (ts : datetime) :
  step_noise cfg st ts
  = (0.0 + rng_seq (st_rng st) (rng_pos (st_rng st) + (step_draws ts - 1))
           * noise_sigma cfg)%R.
Proof.
  unfold step_noise. rewrite step_occupancy_rng. reflexivity.
Qed.

Lemma step_occupancy_draw (cfg : SimConfig) (st : LoopState) (ts : datetime) :
  simulate_open_regime ts <> 0%Z ->
  fst (step_occupancy cfg st ts)
  = clamp (180.0 * academic_intensity cfg
           * (0.6 * exp (- ((hour_of ts - 13.0) ^ 2) / (2 * 3.5 ^ 2))
              + 0.4 * exp (- ((hour_of ts - 18.0) ^ 2) / (2 * 2.8 ^ 2)))
           * (if (weekday ts <=? 4)%Z then 1.0 else 0.65)
           + (0.0 + rng_seq (st_rng st) (rng_pos (st_rng st)) * 8.0))%R 0.0 220.0.
Proof.
  intro H. unfold step_occupancy. rewrite (simulate_occupancy_open _ _ _ _ H).
  reflexivity.
Qed.

Lemma loop_rng_advance (cfg : SimConfig) (times : list datetime) (st : LoopState) :
  st_rng (fold_left (simulate_step cfg) times st)
  = {| rng_seq := rng_seq (st_rng st);
       rng_pos := (rng_pos (st_rng st) + run_draws times)%nat |}.
Proof.
  revert st. induction times as [| ts times IH]; intro st.
  - cbn [fold_left]. unfold run_draws. cbn [map list_sum fold_right].
    rewrite Nat.add_0_r. destruct (st_rng st). reflexivity.
  - cbn [fold_left]. rewrite IH, step_rng_advance. cbn [rng_seq rng_pos].
    unfold run_draws, list_sum. cbn [map fold_right]. f_equal. lia.
Qed.

(** ** The time grid *)

Lemma in_range_iff (ts : datetime) :
  in_range ts = true
  <-> (0 <= since_min_us ts < MAXORDINAL * US_PER_DAY)%Z.
Proof.
  unfold in_range. rewrite andb_true_iff, Z.leb_le, Z.leb_le.
  unfold toordinal, MAXORDINAL, US_PER_DAY, US_PER_HOUR, US_PER_MINUTE, US_PER_SECOND.
  generalize (since_min_us ts). intro u.
  Z.div_mod_to_equations. lia.
Qed.

Lemma mapM_ok {A B : Type} (f : A -> result B) (g : A -> B) (l : list A) :
  (forall a, In a l -> f a = Ok (g a)) -> mapM f l = Ok (map g l).
Proof.
  induction l as [| a l IH]; intro H; [reflexivity |].
  cbn [mapM map]. rewrite (H a (or_introl eq_refl)). cbn [bind].
  rewrite IH; [reflexivity |]. intros b Hb. apply H. right. exact Hb.
Qed.

Lemma in_range_inv (n : Z) (a : Z) : In a (range n) <-> (0 <= a < n)%Z.
Proof.
  unfold range. rewrite in_map_iff. split.
  - intros [k [E Hk]]. apply in_seq in Hk. lia.
  - intro H. exists (Z.to_nat a). split; [lia |]. apply in_seq. lia.
Qed.

Lemma range_length (n : Z) : List.length (range n) = Z.to_nat n.
Proof. unfold range. rewrite length_map, length_seq. reflexivity. Qed.

Lemma grid_length (start : datetime) (n step : Z) :
  List.length (grid start n step) = Z.to_nat n.
Proof. unfold grid. rewrite length_map. apply range_length. Qed.

Lemma grid_nth (start : datetime) (n step k : Z) (d : datetime) :
  (0 <= k < n)%Z ->
  nth (Z.to_nat k) (grid start n step) d
  = mk_datetime (since_min_us start + step * US_PER_MINUTE * k)%Z.
Proof.
  intro H. unfold grid, range.
  rewrite (nth_indep _ d
             (mk_datetime (since_min_us start + step * US_PER_MINUTE * Z.of_nat 0)%Z)).
  - rewrite map_map.
    rewrite (map_nth (fun x => mk_datetime
                        (since_min_us start + step * US_PER_MINUTE * Z.of_nat x)%Z)).
    rewrite seq_nth by lia. do 3 f_equal. lia.
  - rewrite !length_map, length_seq. lia.
Qed.

Lemma timedelta_ok_iff (us : Z) :
  timedelta_ok us = true
  <-> (- MAX_DELTA_DAYS * US_PER_DAY <= us < (MAX_DELTA_DAYS + 1) * US_PER_DAY)%Z.
Proof.
  unfold timedelta_ok. rewrite Z.leb_le, Z.abs_le.
  unfold MAX_DELTA_DAYS, US_PER_DAY, US_PER_HOUR, US_PER_MINUTE, US_PER_SECOND.
  Z.div_mod_to_equations. lia.
Qed.

Lemma timedelta_ok_minutes (step : Z) :
  (- (24 * 60) <= step <= 24 * 60)%Z -> timedelta_ok (step * US_PER_MINUTE) = true.
Proof.
  intro H. apply timedelta_ok_iff.
  unfold MAX_DELTA_DAYS, US_PER_DAY, US_PER_HOUR, US_PER_MINUTE, US_PER_SECOND. lia.
Qed.

(** A sum within the years of [datetime], from a start within them, has a
    [timedelta] within range. *)
Lemma add_minutes_ok (ts : datetime) (step i : Z) :
  in_range ts = true ->
  timedelta_ok (step * US_PER_MINUTE) = true ->
  in_range (mk_datetime (since_min_us ts + step * US_PER_MINUTE * i)) = true ->
  add_minutes ts step i
  = Ok (mk_datetime (since_min_us ts + step * US_PER_MINUTE * i)).
Proof.
  intros Hs Hd Hr. unfold add_minutes. cbv zeta. rewrite Hd, Hr. cbn [negb].
  replace (timedelta_ok (step * US_PER_MINUTE * i)) with true; [reflexivity |].
  symmetry. apply timedelta_ok_iff.
  apply in_range_iff in Hs, Hr. cbn [since_min_us] in Hr.
  unfold MAX_DELTA_DAYS, MAXORDINAL, US_PER_DAY, US_PER_HOUR, US_PER_MINUTE,
    US_PER_SECOND in *. lia.
Qed.

Lemma add_minutes_inv (ts : datetime) (step i : Z) (r : datetime) :
  add_minutes ts step i = Ok r ->
  r = mk_datetime (since_min_us ts + step * US_PER_MINUTE * i) /\
  in_range r = true /\
  timedelta_ok (step * US_PER_MINUTE) = true /\
  timedelta_ok (step * US_PER_MINUTE * i) = true.
Proof.
  unfold add_minutes. cbv zeta.
  destruct (timedelta_ok (step * US_PER_MINUTE)); cbn [negb]; [| discriminate].
  destruct (timedelta_ok (step * US_PER_MINUTE * i)); cbn [negb]; [| discriminate].
  destruct (in_range _) eqn:E; [| discriminate].
  intro H. assert (Heq : r = mk_datetime (since_min_us ts + step * US_PER_MINUTE * i))
    by congruence.
  rewrite Heq. auto.
Qed.

Lemma add_minutes_raise (ts : datetime) (step i : Z) (e : exn) :
  add_minutes ts step i = Raise e ->
  e = OverflowError /\
  (timedelta_ok (step * US_PER_MINUTE) = false \/
   timedelta_ok (step * US_PER_MINUTE * i) = false \/
   in_range (mk_datetime (since_min_us ts + step * US_PER_MINUTE * i)) = false).
Proof.
  unfold add_minutes. cbv zeta.
  destruct (timedelta_ok (step * US_PER_MINUTE)); cbn [negb];
    [| intro H; split; [congruence | auto]].
  destruct (timedelta_ok (step * US_PER_MINUTE * i)); cbn [negb];
    [| intro H; split; [congruence | auto]].
  destruct (in_range _); [discriminate |].
  intro H. split; [congruence | auto].
Qed.

Lemma generate_time_index_ok (start : datetime) (n step : Z) :
  in_range start = true ->
  (0 <= step <= 24 * 60)%Z ->
  (since_min_us start + step * US_PER_MINUTE * (n - 1) < MAXORDINAL * US_PER_DAY)%Z ->
  generate_time_index start n step = Ok (grid start n step).
Proof.
  intros Hs Hstep Hlast. unfold generate_time_index, grid.
  apply mapM_ok. intros i Hi. apply in_range_inv in Hi.
  apply add_minutes_ok; [exact Hs | apply timedelta_ok_minutes; lia |].
  apply in_range_iff. apply in_range_iff in Hs.
  cbn [since_min_us]. unfold US_PER_MINUTE, US_PER_SECOND in *. nia.
Qed.

(** ** The number of steps *)

Lemma Int_part_IZR (k : Z) : Int_part (IZR k) = k.
Proof. symmetry. apply Int_part_spec. lra. Qed.

Lemma py_int_IZR (k : Z) : py_int (IZR k) = k.
Proof.
  unfold py_int. float_cases.
  - rewrite <- opp_IZR, Int_part_IZR. lia.
  - apply Int_part_IZR.
Qed.

Lemma steps_per_day_divides (f : Z) :
  f <> 0%Z -> (f | 24 * 60)%Z ->
  steps_per_day_of f = Ok ((24 * 60) / f)%Z.
Proof.
  intros Hf [k Hk]. unfold steps_per_day_of.
  destruct (Z.eqb_spec f 0) as [E | _]; [contradiction |].
  f_equal. rewrite Hk, Z.div_mul by exact Hf.
  rewrite mult_IZR.
  replace (IZR k * IZR f / IZR f)%R with (IZR k).
  - apply py_int_IZR.
  - field. apply not_0_IZR. exact Hf.
Qed.

Lemma steps_per_day_zero : steps_per_day_of 0 = Raise ZeroDivisionError.
Proof. reflexivity. Qed.

(** ** The loop *)

Lemma loop_rows_length (cfg : SimConfig) (times : list datetime) (st : LoopState) :
  List.length (st_rows (fold_left (simulate_step cfg) times st))
  = (List.length (st_rows st) + List.length times)%nat.
Proof.
  revert st. induction times as [| ts times IH]; intro st; cbn [fold_left List.length].
  - lia.
  - rewrite IH, step_rows, length_app. cbn [List.length]. lia.
Qed.

Lemma loop_timestamps (cfg : SimConfig) (times : list datetime) (st : LoopState) :
  map timestamp (st_rows (fold_left (simulate_step cfg) times st))
  = map timestamp (st_rows st) ++ map isoformat times.
Proof.
  revert st. induction times as [| ts times IH]; intro st; cbn [fold_left map].
  - rewrite app_nil_r. reflexivity.
  - rewrite IH, step_rows, map_app, <- app_assoc. cbn [map app].
    rewrite step_row_unfold. reflexivity.
Qed.

Lemma loop_rows_invariant (P : Row -> Prop) (cfg : SimConfig) :
  (forall st ts, P (step_row cfg st ts)) ->
  forall (times : list datetime) (st : LoopState),
    Forall P (st_rows st) ->
    Forall P (st_rows (fold_left (simulate_step cfg) times st)).
Proof.
  intros Hstep times. induction times as [| ts times IH]; intros st H; cbn [fold_left].
  - exact H.
  - apply IH. rewrite step_rows. apply Forall_app. split; [exact H |].
    constructor; [apply Hstep | constructor].
Qed.

Section Runs.

Variable variates : Z -> nat -> R.

Lemma simulate_run_grid (cfg : SimConfig) (start : option datetime) :
  (0 < freq_minutes cfg)%Z ->
  (freq_minutes cfg | 24 * 60)%Z ->
  in_range (start_or_default start) = true ->
  grid_representable cfg (start_or_default start) ->
  simulate_run variates cfg start
  = Ok (fold_left (simulate_step cfg)
          (grid (start_or_default start) (n_steps_of cfg) (freq_minutes cfg))
          (initial_state variates cfg)).
Proof.
  intros Hf Hd Hs Hg. unfold simulate_run.
  rewrite steps_per_day_divides by (try exact Hd; lia). cbn [bind].
  fold (start_or_default start). fold (n_steps_of cfg).
  rewrite generate_time_index_ok; [reflexivity | exact Hs | |].
  { split; [lia |]. apply Z.divide_pos_le; [lia | exact Hd]. }
  unfold grid_representable in Hg. unfold n_steps_of.
  destruct Hd as [k Hk]. rewrite Hk, Z.div_mul by lia.
  rewrite Hk in Hg. unfold US_PER_MINUTE, US_PER_SECOND in *. nia.
Qed.

Lemma simulate_of_run (cfg : SimConfig) (start : option datetime) (st : LoopState) :
  simulate_run variates cfg start = Ok st ->
  simulate variates cfg start = Ok (st_rows st).
Proof. intro H. unfold simulate. rewrite H. reflexivity. Qed.

(** Every run that returns is the loop over the timestamps that
    [generate_time_index] produced. *)
Lemma simulate_run_inv (cfg : SimConfig) (start : option datetime) (st : LoopState) :
  simulate_run variates cfg start = Ok st ->
  exists (spd : Z) (times : list datetime),
    steps_per_day_of (freq_minutes cfg) = Ok spd /\
    generate_time_index (start_or_default start) (n_days cfg * spd) (freq_minutes cfg)
    = Ok times /\
    st = fold_left (simulate_step cfg) times (initial_state variates cfg).
Proof.
  unfold simulate_run. fold (start_or_default start). intro H.
  destruct (steps_per_day_of (freq_minutes cfg)) as [spd | e]; [| discriminate].
  cbn [bind] in H.
  destruct (generate_time_index _ _ _) as [times | e] eqn:G; [| discriminate].
  cbn [bind] in H. injection H as <-. exists spd, times. auto.
Qed.

Lemma simulate_inv (cfg : SimConfig) (start : option datetime) (rows : list Row) :
  simulate variates cfg start = Ok rows ->
  exists times : list datetime,
    rows = st_rows (fold_left (simulate_step cfg) times (initial_state variates cfg)).
Proof.
  unfold simulate. intro H.
  destruct (simulate_run variates cfg start) as [st | e] eqn:E; [| discriminate].
  cbn [bind] in H. injection H as <-.
  destruct (simulate_run_inv _ _ _ E) as [spd [times [_ [_ ->]]]].
  exists times. reflexivity.
Qed.

End Runs.

(** ** The random stream of a run *)

(** C2, as the code has it. A step reads, in this order, one variate for the
    occupancy when the regime is open and none when it is closed, then one
    variate for the noise; the generator keeps the sequence of its seeding and
    only advances. So a loop over [times] consumes [run_draws times] variates,
    two per open step and one per closed step, and a run of [simulate] ends
    with the generator of its seed advanced by the draws of its grid. *)
Theorem random_stream_consumption (variates : Z -> nat -> R) (cfg : SimConfig)
  (start : option datetime) :
  (forall (st : LoopState) (ts : datetime),
      let pos := rng_pos (st_rng st) in
      let z := rng_seq (st_rng st) in
      st_rng (simulate_step cfg st ts)
      = {| rng_seq := z; rng_pos := (pos + step_draws ts)%nat |} /\
      (simulate_open_regime ts = 0%Z ->
       step_draws ts = 1%nat /\
       step_occupancy cfg st ts = (0.0%R, st_rng st) /\
       step_noise cfg st ts = (0.0 + z pos * noise_sigma cfg)%R) /\
      (simulate_open_regime ts = 1%Z ->
       step_draws ts = 2%nat /\
       fst (step_occupancy cfg st ts)
       = clamp (180.0 * academic_intensity cfg
                * (0.6 * exp (- ((hour_of ts - 13.0) ^ 2) / (2 * 3.5 ^ 2))
                   + 0.4 * exp (- ((hour_of ts - 18.0) ^ 2) / (2 * 2.8 ^ 2)))
                * (if (weekday ts <=? 4)%Z then 1.0 else 0.65)
                + (0.0 + z pos * 8.0))%R 0.0 220.0 /\
       step_noise cfg st ts = (0.0 + z (S pos) * noise_sigma cfg)%R)) /\
  (forall (times : list datetime) (st : LoopState),
      st_rng (fold_left (simulate_step cfg) times st)
      = {| rng_seq := rng_seq (st_rng st);
           rng_pos := (rng_pos (st_rng st) + run_draws times)%nat |}) /\
  (forall st : LoopState,
      simulate_run variates cfg start = Ok st ->
      exists (spd : Z) (times : list datetime),
        steps_per_day_of (freq_minutes cfg) = Ok spd /\
        generate_time_index (start_or_default start) (n_days cfg * spd)
          (freq_minutes cfg) = Ok times /\
        st_rng st
        = {| rng_seq := variates (seed cfg); rng_pos := run_draws times |}).
Proof.
  split; [| split].
  - intros st ts. cbv zeta. split; [apply step_rng_advance |]. split.
    + intro H.
      assert (D : step_draws ts = 1%nat) by (unfold step_draws; rewrite H; reflexivity).
      split; [exact D |]. split; [apply step_occupancy_closed, H |].
      rewrite step_noise_draw, D. cbn [Nat.sub]. rewrite Nat.add_0_r. reflexivity.
    + intro H.
      assert (D : step_draws ts = 2%nat) by (unfold step_draws; rewrite H; reflexivity).
      split; [exact D |]. split.
      * apply step_occupancy_draw. rewrite H. discriminate.
      * rewrite step_noise_draw, D. cbn [Nat.sub]. rewrite Nat.add_1_r. reflexivity.
  - intros times st. apply loop_rng_advance.
  - intros st H.
    destruct (simulate_run_inv _ _ _ _ H) as [spd [times [Hs [Hg ->]]]].
    exists spd, times. split; [exact Hs |]. split; [exact Hg |].
    rewrite loop_rng_advance. reflexivity.
Qed.

(** ** Determinism *)

Lemma normalvariate_equiv (mu sigma : R) (r1 r2 : Rng) :
  rng_equiv r1 r2 ->
  fst (normalvariate mu sigma r1) = fst (normalvariate mu sigma r2) /\
  rng_equiv (snd (normalvariate mu sigma r1)) (snd (normalvariate mu sigma r2)).
Proof.
  intros [Hp Hs]. unfold normalvariate, rng_equiv. cbn [fst snd rng_pos rng_seq].
  rewrite Hp, Hs. auto.
Qed.

Lemma simulate_occupancy_equiv (ts : datetime) (x3 : Z) (ai : R) (r1 r2 : Rng) :
  rng_equiv r1 r2 ->
  fst (simulate_occupancy ts x3 ai r1) = fst (simulate_occupancy ts x3 ai r2) /\
  rng_equiv (snd (simulate_occupancy ts x3 ai r1)) (snd (simulate_occupancy ts x3 ai r2)).
Proof.
  intro H. destruct (Z.eq_dec x3 0) as [-> | Hx].
  - rewrite !simulate_occupancy_closed. cbn [fst snd]. auto.
  - rewrite !(simulate_occupancy_open _ _ _ _ Hx). cbn [fst snd].
    destruct H as [Hp Hs]. unfold rng_equiv. cbn [rng_pos rng_seq].
    rewrite Hp, Hs. auto.
Qed.

Lemma simulate_step_equiv (cfg : SimConfig) (a b : LoopState) (ts : datetime) :
  state_equiv a b ->
  state_equiv (simulate_step cfg a ts) (simulate_step cfg b ts).
Proof.
  intros [Hr [Hy Hrows]].
  pose proof (simulate_occupancy_equiv ts (simulate_open_regime ts)
                (academic_intensity cfg) _ _ Hr) as [Ho Hr'].
  fold (step_occupancy cfg a ts) in Ho, Hr'.
  fold (step_occupancy cfg b ts) in Ho, Hr'.
  pose proof (normalvariate_equiv 0.0 (noise_sigma cfg) _ _ Hr') as [Hn Hr''].
  fold (step_noise cfg a ts) in Hn. fold (step_noise cfg b ts) in Hn.
  assert (Ha : step_activation cfg a ts = step_activation cfg b ts).
  { unfold step_activation. rewrite Ho. reflexivity. }
  assert (Hd : step_demand cfg a ts = step_demand cfg b ts).
  { unfold step_demand. rewrite Ha. reflexivity. }
  rewrite !simulate_step_unfold. unfold state_equiv. cbn [st_rng st_y_prev st_rows].
  rewrite Hy, Hrows, Ho, Ha, Hd, Hn. auto.
Qed.

Lemma loop_equiv (cfg : SimConfig) (times : list datetime) (a b : LoopState) :
  state_equiv a b ->
  state_equiv (fold_left (simulate_step cfg) times a)
              (fold_left (simulate_step cfg) times b).
Proof.
  revert a b. induction times as [| ts times IH]; intros a b H; cbn [fold_left].
  - exact H.
  - apply IH, simulate_step_equiv, H.
Qed.

(** The result depends on the library's generators through the variates of
    the configured seed only. *)
Lemma simulate_deterministic (v1 v2 : Z -> nat -> R) (cfg1 cfg2 : SimConfig)
  (start1 start2 : option datetime) :
  cfg1 = cfg2 ->
  start1 = start2 ->
  (forall k : nat, v1 (seed cfg1) k = v2 (seed cfg2) k) ->
  simulate v1 cfg1 start1 = simulate v2 cfg2 start2.
Proof.
  intros <- <- Hv. unfold simulate, simulate_run.
  destruct (steps_per_day_of (freq_minutes cfg1)) as [spd | e]; [| reflexivity].
  cbn [bind].
  destruct (generate_time_index _ _ _) as [times | e]; [| reflexivity].
  cbn [bind]. f_equal.
  apply loop_equiv. unfold state_equiv, rng_equiv, seeded.
  cbn [st_rng st_y_prev st_rows rng_pos rng_seq]. auto.
Qed.

(** Two generators that agree on the seed 123 only, at the default
    configuration and start. *)
Lemma simulate_deterministic_default :
  simulate (variates_of_list [0.3; -1.2; 0.5]%R) default_config None
  = simulate (variates_for_123 [0.3; -1.2; 0.5]%R) default_config None.
Proof.
  apply (simulate_deterministic _ _ default_config default_config None None).
  - reflexivity.
  - reflexivity.
  - intro k. reflexivity.
Defined.

(** ** Reproducibility, with the generator on the heap *)

Lemma load_last (h : heap) (g : Rng) : load (h ++ [g]) (List.length h) = g.
Proof. unfold load. apply nth_middle. Qed.

Lemma store_last (h : heap) (g g' : Rng) :
  store (h ++ [g]) (List.length h) g' = h ++ [g'].
Proof.
  unfold store.
  rewrite firstn_app, Nat.sub_diag, firstn_all, firstn_O, app_nil_r.
  rewrite skipn_all2 by (rewrite length_app; cbn [List.length]; lia).
  reflexivity.
Qed.

Lemma normalvariate_ref_last (h : heap) (g : Rng) (mu sigma : R) :
  normalvariate_ref (List.length h) mu sigma (h ++ [g])
  = (fst (normalvariate mu sigma g), h ++ [snd (normalvariate mu sigma g)]).
Proof.
  unfold normalvariate_ref. rewrite load_last.
  destruct (normalvariate mu sigma g) as [x g']. cbn [fst snd].
  rewrite store_last. reflexivity.
Qed.

Lemma simulate_occupancy_ref_last (ts : datetime) (x3 : Z) (ai : R) (h : heap)
  (g : Rng) :
  simulate_occupancy_ref ts x3 ai (List.length h) (h ++ [g])
  = (fst (simulate_occupancy ts x3 ai g), h ++ [snd (simulate_occupancy ts x3 ai g)]).
Proof.
  unfold simulate_occupancy_ref, simulate_occupancy.
  destruct (x3 =? 0)%Z; [reflexivity |].
  rewrite normalvariate_ref_last.
  destruct (normalvariate 0.0 8.0 g) as [noise g']. reflexivity.
Qed.

(** A step through the reference does to the generator object, and to it
    alone, what the step on the loop's variables does. *)
Lemma simulate_step_ref_last (cfg : SimConfig) (h : heap) (st : LoopState)
  (ts : datetime) :
  simulate_step_ref cfg (List.length h) (frame_of h st) ts
  = frame_of h (simulate_step cfg st ts).
Proof.
  unfold simulate_step_ref, simulate_step, frame_of.
  cbn [fr_heap fr_y_prev fr_rows].
  rewrite simulate_occupancy_ref_last.
  destruct (simulate_occupancy ts (simulate_open_regime ts) (academic_intensity cfg)
              (st_rng st)) as [x1_occ g1].
  cbn [fst snd]. rewrite normalvariate_ref_last.
  destruct (normalvariate 0.0 (noise_sigma cfg) g1) as [noise g2].
  reflexivity.
Qed.

Lemma loop_ref_last (cfg : SimConfig) (h : heap) (times : list datetime)
  (st : LoopState) :
  fold_left (simulate_step_ref cfg (List.length h)) times (frame_of h st)
  = frame_of h (fold_left (simulate_step cfg) times st).
Proof.
  revert st. induction times as [| ts times IH]; intro st; cbn [fold_left].
  - reflexivity.
  - rewrite simulate_step_ref_last. apply IH.
Qed.

(** A call leaves the heap it found, plus its own generator, and returns what
    the function [simulate] gives. *)
Lemma simulate_ref_result (variates : Z -> nat -> R) (cfg : SimConfig)
  (start : option datetime) (h : heap) :
  exists g : Rng,
    simulate_ref variates cfg start h = (simulate variates cfg start, h ++ [g]).
Proof.
  unfold simulate_ref, simulate, simulate_run, alloc.
  destruct (steps_per_day_of (freq_minutes cfg)) as [spd | e]; cbn [bind];
    [| eexists; reflexivity].
  destruct (generate_time_index _ _ _) as [times | e]; cbn [bind];
    [| eexists; reflexivity].
  change {| fr_y_prev := base_kwh_when_closed cfg; fr_rows := [];
            fr_heap := h ++ [seeded variates (seed cfg)] |}
    with (frame_of h {| st_rng := seeded variates (seed cfg);
                        st_y_prev := base_kwh_when_closed cfg;
                        st_rows := [] |}).
  rewrite loop_ref_last. eexists. reflexivity.
Qed.

(** A draw through a reference that the heap already holds, such as the
    generator of the [random] module, does depend on the heap. *)
Lemma shared_generator_depends_on_heap :
  fst (normalvariate_ref 0%nat 0 1 [mk_rng (fun _ => 1%R) 0])
  <> fst (normalvariate_ref 0%nat 0 1 [mk_rng (fun _ => 2%R) 0]).
Proof.
  unfold normalvariate_ref, normalvariate, load.
  cbn [nth fst rng_seq rng_pos]. lra.
Qed.

(** C1. Two calls of [simulate] with the same configuration, seed included,
    and the same start return the same result, field for field, whatever the
    heaps in which they run: the generators that already exist, in whatever
    state, are neither read nor changed, and the result is the one that the
    function [simulate] gives. *)
Theorem simulate_reproducible (variates : Z -> nat -> R) (cfg1 cfg2 : SimConfig)
  (start1 start2 : option datetime) (h1 h2 : heap) :
  cfg1 = cfg2 ->
  start1 = start2 ->
  fst (simulate_ref variates cfg1 start1 h1)
  = fst (simulate_ref variates cfg2 start2 h2) /\
  fst (simulate_ref variates cfg1 start1 h1) = simulate variates cfg1 start1 /\
  firstn (List.length h1) (snd (simulate_ref variates cfg1 start1 h1)) = h1 /\
  firstn (List.length h2) (snd (simulate_ref variates cfg2 start2 h2)) = h2.
Proof.
  intros <- <-.
  destruct (simulate_ref_result variates cfg1 start1 h1) as [g1 E1].
  destruct (simulate_ref_result variates cfg1 start1 h2) as [g2 E2].
  rewrite E1, E2. cbn [fst snd].
  rewrite !firstn_app, !Nat.sub_diag, !firstn_all, !firstn_O, !app_nil_r.
  auto.
Qed.

(** An empty heap, and a heap that holds the generator of the [random] module
    and a generator of the same seed that has already given five variates. *)
Lemma simulate_reproducible_default :
  fst (simulate_ref (variates_of_list [0.3; -1.2; 0.5]%R) default_config None [])
  = fst (simulate_ref (variates_of_list [0.3; -1.2; 0.5]%R) default_config None
           [ mk_rng (fun _ => 0.7%R) 3;
             mk_rng (variates_of_list [0.3; -1.2; 0.5]%R 123) 5 ]).
Proof.
  apply (simulate_reproducible (variates_of_list [0.3; -1.2; 0.5]%R)
           default_config default_config None None).
  - reflexivity.
  - reflexivity.
Defined.

(** ** The size and the timestamps of a run *)

Lemma grid_increasing (start : datetime) (n step i j : Z) (d : datetime) :
  (0 < step)%Z -> (0 <= i)%Z -> (i < j)%Z -> (j < n)%Z ->
  (since_min_us (nth (Z.to_nat i) (grid start n step) d)
   < since_min_us (nth (Z.to_nat j) (grid start n step) d))%Z.
Proof.
  intros Hs Hi Hij Hj. rewrite !grid_nth by lia. cbn [since_min_us].
  unfold US_PER_MINUTE, US_PER_SECOND. nia.
Qed.

(** C5, as the code has it. For a configuration whose [freq_minutes] is a
    positive divisor of 1440 and whose [n_days] is not negative, from a start
    whose grid stays within the years of [datetime], [simulate] returns
    [n_days * (1440 / freq_minutes)] records; their timestamps are the ISO
    renderings of the grid points [start + k * freq_minutes] minutes, which
    begin at [start] (2025-01-01T00:00:00 when none is given) and strictly
    increase. *)
Theorem simulate_time_grid (variates : Z -> nat -> R) (cfg : SimConfig)
  (start : option datetime) :
  (0 < freq_minutes cfg)%Z ->
  (freq_minutes cfg | 24 * 60)%Z ->
  (0 <= n_days cfg)%Z ->
  in_range (start_or_default start) = true ->
  grid_representable cfg (start_or_default start) ->
  let origin := start_or_default start in
  let n := (n_days cfg * ((24 * 60) / freq_minutes cfg))%Z in
  let times := grid origin n (freq_minutes cfg) in
  exists rows : list Row,
    simulate variates cfg start = Ok rows /\
    Z.of_nat (List.length rows) = n /\
    map timestamp rows = map isoformat times /\
    (forall k : Z, (0 <= k < n)%Z ->
       nth (Z.to_nat k) times origin
       = mk_datetime (since_min_us origin + freq_minutes cfg * US_PER_MINUTE * k)%Z) /\
    (forall i j : Z, (0 <= i)%Z -> (i < j)%Z -> (j < n)%Z ->
       (since_min_us (nth (Z.to_nat i) times origin)
        < since_min_us (nth (Z.to_nat j) times origin))%Z).
Proof.
  intros Hf Hd Hn Hs Hg. cbv zeta.
  pose proof (simulate_run_grid variates cfg start Hf Hd Hs Hg) as Hrun.
  apply simulate_of_run in Hrun. unfold n_steps_of in Hrun.
  eexists. split; [exact Hrun |]. split; [| split; [| split]].
  - rewrite loop_rows_length, grid_length. cbn [st_rows initial_state List.length].
    assert (0 <= (24 * 60) / freq_minutes cfg)%Z by (apply Z.div_pos; lia).
    nia.
  - rewrite loop_timestamps. reflexivity.
  - intros k Hk. apply grid_nth. exact Hk.
  - intros i j Hi Hij Hj. apply grid_increasing; assumption.
Qed.

(** The default configuration from the default start: 1440 records, the first
    one stamped 2025-01-01T00:00:00. *)
Lemma simulate_default_grid :
  exists rows : list Row,
    simulate (variates_of_list []) default_config None = Ok rows /\
    List.length rows = 1440%nat /\
    hd_error (map timestamp rows) = Some "2025-01-01T00:00:00"%string.
Proof.
  destruct (simulate_time_grid (variates_of_list []) default_config None)
    as [rows [Hrows [Hlen [Hts _]]]].
  - reflexivity.
  - exists 24%Z. reflexivity.
  - discriminate.
  - vm_compute. reflexivity.
  - vm_compute. reflexivity.
  - exists rows. split; [exact Hrows |]. split.
    + apply Nat2Z.inj. rewrite Hlen. vm_compute. reflexivity.
    + rewrite Hts. vm_compute. reflexivity.
Defined.

(** A negative [n_days] gives no record where the product is -24; a negative
    divisor of 1440 with a negative [n_days] gives 24 records whose timestamps
    decrease; and a start in the last day of year 9999 raises. *)
Lemma simulate_grid_limits :
  (simulate (variates_of_list []) (with_grid default_config (-1) 60) None = Ok [] /\
   (-1 * ((24 * 60) / 60) = -24)%Z) /\
  (exists rows : list Row,
     simulate (variates_of_list []) (with_grid default_config (-1) (-60)) None = Ok rows /\
     (-60 | 24 * 60)%Z /\
     firstn 2 (map timestamp rows)
     = ["2025-01-01T00:00:00"; "2024-12-31T23:00:00"]%string) /\
  simulate (variates_of_list []) default_config (Some (datetime_of 9999 12 31 23 0 0))
  = Raise OverflowError.
Proof.
  split; [| split].
  - split; [| reflexivity].
    assert (H : simulate_run (variates_of_list []) (with_grid default_config (-1) 60) None
                = Ok (initial_state (variates_of_list []) (with_grid default_config (-1) 60))).
    { rewrite simulate_run_grid.
      - reflexivity.
      - reflexivity.
      - exists 24%Z. reflexivity.
      - vm_compute. reflexivity.
      - vm_compute. reflexivity. }
    apply simulate_of_run in H. exact H.
  - assert (G : generate_time_index default_start 24 (-60)
                = Ok (grid default_start 24 (-60))) by (vm_compute; reflexivity).
    assert (H : simulate_run (variates_of_list []) (with_grid default_config (-1) (-60)) None
                = Ok (fold_left (simulate_step (with_grid default_config (-1) (-60)))
                        (grid default_start 24 (-60))
                        (initial_state (variates_of_list [])
                           (with_grid default_config (-1) (-60))))).
    { unfold simulate_run. cbn [freq_minutes n_days with_grid].
      rewrite steps_per_day_divides; [| discriminate | exists (-24)%Z; reflexivity].
      cbn [bind].
      replace (-1 * (24 * 60 / -60))%Z with 24%Z by reflexivity.
      rewrite G. reflexivity. }
    apply simulate_of_run in H. eexists. split; [exact H |].
    split; [exists (-24)%Z; reflexivity |].
    rewrite loop_timestamps. vm_compute. reflexivity.
  - unfold simulate, simulate_run. cbn [freq_minutes n_days default_config].
    rewrite steps_per_day_divides; [| discriminate | exists 24%Z; reflexivity].
    cbn [bind].
    replace (generate_time_index _ _ _) with (@Raise (list datetime) OverflowError)
      by (vm_compute; reflexivity).
    reflexivity.
Qed.

(** ** Bounds of the records *)

Lemma step_occupancy_bounds (cfg : SimConfig) (st : LoopState) (ts : datetime) :
  (0 <= fst (step_occupancy cfg st ts) <= 220)%R.
Proof.
  destruct (Z.eq_dec (simulate_open_regime ts) 0) as [E | E].
  - rewrite (step_occupancy_closed _ _ _ E). cbn [fst]. lra.
  - rewrite (step_occupancy_draw _ _ _ E).
    match goal with
    | |- context [clamp ?x _ _] => pose proof (clamp_bounds x 0.0 220.0) as H
    end.
    lra.
Qed.

Lemma step_activation_bounds (cfg : SimConfig) (st : LoopState) (ts : datetime) :
  (0 <= step_activation cfg st ts <= 2)%R.
Proof.
  unfold step_activation, activation.
  match goal with
  | |- context [clamp ?x _ _] => pose proof (clamp_bounds x 0.0 2.0) as H
  end.
  lra.
Qed.

Lemma step_y_nonneg (cfg : SimConfig) (st : LoopState) (ts : datetime) :
  (0 <= st_y_prev (simulate_step cfg st ts))%R.
Proof.
  rewrite step_y.
  match goal with
  | |- context [py_max _ ?x] => pose proof (py_max_lower 0.0 x) as H
  end.
  lra.
Qed.

Lemma step_row_ok (cfg : SimConfig) (st : LoopState) (ts : datetime) :
  record_ok (step_row cfg st ts).
Proof.
  rewrite step_row_unfold. unfold record_ok.
  cbn [X1_occupancy X3_open M1_activation Y_kwh].
  split; [| split; [| split]].
  - apply (py_round_range _ 3 0 220). apply step_occupancy_bounds.
  - intro H. apply eq_IZR in H.
    rewrite (step_occupancy_closed _ _ _ H). cbn [fst].
    replace 0.0%R with 0%R by lra. apply py_round_0.
  - apply (py_round_range _ 4 0 2). apply step_activation_bounds.
  - apply py_round_nonneg. apply step_y_nonneg.
Qed.

(** C3. Every record that [simulate] returns has its occupancy in [[0, 220]]
    and equal to 0 when [X3_open] is 0, its activation in [[0, 2]] and a
    non-negative energy. *)
Theorem simulate_records_ok (variates : Z -> nat -> R) (cfg : SimConfig)
  (start : option datetime) (rows : list Row) :
  simulate variates cfg start = Ok rows ->
  Forall record_ok rows.
Proof.
  intro H. apply simulate_inv in H. destruct H as [times ->].
  apply loop_rows_invariant; [apply step_row_ok | constructor].
Qed.

(** The first day of the default configuration: 24 records, all within the
    bounds. *)
Lemma simulate_records_ok_first_day :
  exists rows : list Row,
    simulate (variates_of_list [0.3; -1.2; 0.5]%R) (with_grid default_config 1 60) None
    = Ok rows /\
    List.length rows = 24%nat /\
    Forall record_ok rows.
Proof.
  pose proof (simulate_run_grid (variates_of_list [0.3; -1.2; 0.5]%R)
                (with_grid default_config 1 60) None) as H.
  assert (H' := H eq_refl (ex_intro _ 24%Z eq_refl) eq_refl eq_refl).
  apply simulate_of_run in H'.
  eexists. split; [exact H' |]. split.
  - rewrite loop_rows_length, grid_length. reflexivity.
  - apply (simulate_records_ok _ _ _ _ H').
Defined.

(** ** The inertia coefficient at its two ends *)

Lemma step_y_full_inertia (cfg : SimConfig) (st : LoopState) (ts : datetime) :
  inertia_phi cfg = 1.0%R ->
  st_y_prev (simulate_step cfg st ts)
  = py_max 0.0 (st_y_prev st + step_noise cfg st ts).
Proof.
  intro H. rewrite step_y, H. f_equal. lra.
Qed.

Lemma step_y_no_inertia (cfg : SimConfig) (st : LoopState) (ts : datetime) :
  inertia_phi cfg = 0.0%R ->
  st_y_prev (simulate_step cfg st ts)
  = py_max 0.0 (step_demand cfg st ts + step_noise cfg st ts).
Proof.
  intro H. rewrite step_y, H. f_equal. lra.
Qed.

Lemma step_row_y (cfg : SimConfig) (st : LoopState) (ts : datetime) :
  Y_kwh (step_row cfg st ts) = py_round (st_y_prev (simulate_step cfg st ts)) 4.
Proof. rewrite step_row_unfold. reflexivity. Qed.

(** What a step computes from the generator alone. *)
Lemma step_values_of_rng (cfg : SimConfig) (st st' : LoopState) (ts : datetime) :
  st_rng st = st_rng st' ->
  step_demand cfg st ts = step_demand cfg st' ts /\
  step_noise cfg st ts = step_noise cfg st' ts.
Proof.
  intro H.
  unfold step_noise, step_demand, step_activation, step_occupancy.
  rewrite H. auto.
Qed.

(** C4, as the code has it. With [inertia_phi = 1.0] the energy a step
    computes is the previous energy (before rounding; the closed-state
    baseline at the first step) plus the noise of the step, floored at 0, and
    the demand has no weight; with [inertia_phi = 0.0] it is the demand plus
    the noise, floored at 0, whatever the previous energy and the records so
    far. The record holds that energy rounded to 4 decimals. *)
Theorem inertia_boundary (cfg : SimConfig) (st : LoopState) (ts : datetime) :
  (inertia_phi cfg = 1.0%R ->
   st_y_prev (simulate_step cfg st ts)
   = py_max 0.0 (st_y_prev st + step_noise cfg st ts)) /\
  (inertia_phi cfg = 0.0%R ->
   st_y_prev (simulate_step cfg st ts)
   = py_max 0.0 (step_demand cfg st ts + step_noise cfg st ts) /\
   forall st' : LoopState,
     st_rng st' = st_rng st ->
     st_y_prev (simulate_step cfg st' ts) = st_y_prev (simulate_step cfg st ts) /\
     Y_kwh (step_row cfg st' ts) = Y_kwh (step_row cfg st ts)) /\
  Y_kwh (step_row cfg st ts) = py_round (st_y_prev (simulate_step cfg st ts)) 4.
Proof.
  split; [apply step_y_full_inertia |]. split; [| apply step_row_y].
  intro H. split; [apply step_y_no_inertia, H |].
  intros st' Hrng.
  destruct (step_values_of_rng cfg st' st ts Hrng) as [Hd Hn].
  assert (E : st_y_prev (simulate_step cfg st' ts) = st_y_prev (simulate_step cfg st ts)).
  { rewrite !step_y_no_inertia by exact H. rewrite Hd, Hn. reflexivity. }
  split; [exact E |]. rewrite !step_row_y, E. reflexivity.
Qed.

(** With [inertia_phi = 1.0], two steps a day and the variates 0, 0, -4: the
    first energy is 8, the noise of the second step is -10, and the second
    energy is 0, not -2. *)
Lemma inertia_floor_counterexample :
  let cfg := with_inertia (with_grid default_config 1 720) 1.0 in
  let v := variates_of_list [0; 0; -4]%R in
  let t1 := datetime_of 2025 1 1 12 0 0 in
  let st1 := simulate_step cfg (initial_state v cfg) default_start in
  let st2 := simulate_step cfg st1 t1 in
  simulate v cfg None = Ok (st_rows st2) /\
  inertia_phi cfg = 1.0%R /\
  st_y_prev st1 = 8%R /\
  step_noise cfg st1 t1 = (-10)%R /\
  st_y_prev st2 = 0%R /\
  st_y_prev st2 <> (st_y_prev st1 + step_noise cfg st1 t1)%R /\
  map Y_kwh (st_rows st2) = [8; 0]%R.
Proof.
  cbv zeta.
  set (cfg := with_inertia (with_grid default_config 1 720) 1.0).
  set (v := variates_of_list [0; 0; -4]%R).
  set (t1 := datetime_of 2025 1 1 12 0 0).
  set (st0 := initial_state v cfg).
  set (st1 := simulate_step cfg st0 default_start).
  set (st2 := simulate_step cfg st1 t1).
  assert (D0 : step_draws default_start = 1%nat).
  { unfold step_draws. rewrite regime_midnight. reflexivity. }
  assert (D1 : step_draws t1 = 2%nat).
  { unfold step_draws, t1. rewrite regime_noon. reflexivity. }
  assert (Hphi : inertia_phi cfg = 1.0%R) by reflexivity.
  assert (Y1 : st_y_prev st1 = 8%R).
  { unfold st1. rewrite (step_y_full_inertia _ _ _ Hphi), step_noise_draw, D0.
    cbn [st0 initial_state st_rng st_y_prev seeded rng_pos rng_seq v variates_of_list
         Nat.sub Nat.add nth cfg with_inertia with_grid default_config
         base_kwh_when_closed noise_sigma].
    unfold py_max. float_cases; lra. }
  assert (N2 : step_noise cfg st1 t1 = (-10)%R).
  { rewrite step_noise_draw, D1. unfold st1. rewrite step_rng_advance, D0.
    cbn [st0 initial_state st_rng seeded rng_pos rng_seq v variates_of_list
         Nat.sub Nat.add nth cfg with_inertia with_grid default_config noise_sigma].
    lra. }
  assert (Y2 : st_y_prev st2 = 0%R).
  { unfold st2. rewrite (step_y_full_inertia _ _ _ Hphi), Y1, N2.
    unfold py_max. float_cases; lra. }
  split; [| split; [exact Hphi | split; [exact Y1 | split; [exact N2 | split; [exact Y2 |]]]]].
  - assert (H : simulate_run v cfg None
                = Ok (fold_left (simulate_step cfg)
                        (grid default_start (n_steps_of cfg) (freq_minutes cfg)) st0)).
    { apply simulate_run_grid.
      - reflexivity.
      - exists 2%Z. reflexivity.
      - reflexivity.
      - vm_compute. reflexivity. }
    apply simulate_of_run in H. rewrite H.
    replace (grid default_start (n_steps_of cfg) (freq_minutes cfg))
      with [default_start; t1] by (vm_compute; reflexivity).
    reflexivity.
  - split.
    + rewrite Y1, Y2, N2. lra.
    + unfold st2. rewrite step_rows. fold st2. unfold st1. rewrite step_rows. fold st1.
      cbn [st0 initial_state st_rows app map]. rewrite !step_row_y.
      fold st1. fold st2. rewrite Y1, Y2, !py_round_IZR. reflexivity.
Qed.

(** The two ends at the first step of the default run: with full inertia the
    energy is the closed-state baseline plus the noise, floored at 0. *)
Lemma inertia_boundary_first_step :
  let cfg := with_inertia default_config 1.0 in
  let st0 := initial_state (variates_of_list [0.3; -1.2; 0.5]%R) cfg in
  st_y_prev (simulate_step cfg st0 default_start)
  = py_max 0.0 (8.0 + step_noise cfg st0 default_start).
Proof.
  cbv zeta.
  apply (proj1 (inertia_boundary (with_inertia default_config 1.0)
                  (initial_state (variates_of_list [0.3; -1.2; 0.5]%R)
                     (with_inertia default_config 1.0)) default_start)).
  reflexivity.
Defined.

(** ** Draws of a whole run *)

Lemma run_draws_schedule (times : list datetime) :
  run_draws times
  = list_sum (map (fun ts => if scheduled_openb ts then 2%nat else 1%nat) times).
Proof.
  unfold run_draws. f_equal. apply map_ext. intro ts.
  unfold step_draws. rewrite simulate_open_regime_schedule.
  destruct (scheduled_openb ts); reflexivity.
Qed.

(** The first step of the default run is closed and reads one variate; the
    first day has 24 steps and reads 38 variates, not 48. *)
Lemma closed_step_single_draw :
  let cfg := with_grid default_config 1 60 in
  let v := variates_of_list [] in
  simulate_open_regime default_start = 0%Z /\
  rng_pos (st_rng (simulate_step cfg (initial_state v cfg) default_start)) = 1%nat /\
  exists st : LoopState,
    simulate_run v cfg None = Ok st /\
    List.length (st_rows st) = 24%nat /\
    rng_pos (st_rng st) = 38%nat.
Proof.
  cbv zeta. split; [exact regime_midnight |]. split.
  - rewrite step_rng_advance. cbn [rng_pos initial_state st_rng seeded].
    unfold step_draws. rewrite regime_midnight. reflexivity.
  - pose proof (simulate_run_grid (variates_of_list []) (with_grid default_config 1 60)
                  None eq_refl (ex_intro _ 24%Z eq_refl) eq_refl eq_refl) as H.
    eexists. split; [exact H |]. split.
    + rewrite loop_rows_length, grid_length. reflexivity.
    + rewrite loop_rng_advance. cbn [rng_pos initial_state st_rng seeded].
      rewrite run_draws_schedule. vm_compute. reflexivity.
Qed.

(** ** Occupancy clamped to zero while open *)

Lemma exp_neg_bound (a : R) : (0 < a)%R -> (exp (- a) < / (1 + a))%R.
Proof.
  intro H. rewrite exp_Ropp.
  apply Rinv_lt_contravar.
  - apply Rmult_lt_0_compat; [lra | apply exp_pos].
  - apply exp_ineq1. lra.
Qed.

Lemma hour_of_eight : hour_of (datetime_of 2025 1 1 8 0 0) = 8%R.
Proof.
  unfold hour_of.
  destruct (new_year_fields 8) as [_ [-> ->]]; [lia | lra].
Qed.

(** At 08:00 on Wednesday 2025-01-01, at the default intensity, a variate of
    -8 drives the occupancy below zero before the clamp. *)
Lemma occupancy_eight_clamped (rng : Rng) :
  rng_seq rng (rng_pos rng) = (-8)%R ->
  fst (simulate_occupancy (datetime_of 2025 1 1 8 0 0) 1 1.0 rng) = 0.0%R.
Proof.
  intro Hz. rewrite simulate_occupancy_open by discriminate. cbn [fst].
  apply clamp_below; [lra |].
  rewrite hour_of_eight, Hz.
  replace (weekday (datetime_of 2025 1 1 8 0 0) <=? 4)%Z with true
    by (vm_compute; reflexivity).
  replace (- (8 - 13.0) ^ 2 / (2 * 3.5 ^ 2))%R with (- (25 / 24.5))%R by (cbn [pow]; lra).
  replace (- (8 - 18.0) ^ 2 / (2 * 2.8 ^ 2))%R with (- (100 / 15.68))%R by (cbn [pow]; lra).
  pose proof (exp_neg_bound (25 / 24.5)) as H1.
  pose proof (exp_neg_bound (100 / 15.68)) as H2.
  replace (/ (1 + 25 / 24.5))%R with (24.5 / 49.5)%R in H1 by lra.
  replace (/ (1 + 100 / 15.68))%R with (15.68 / 115.68)%R in H2 by lra.
  assert (H1' : (exp (- (25 / 24.5)) < 0.495)%R) by lra.
  assert (H2' : (exp (- (100 / 15.68)) < 0.136)%R) by lra.
  lra.
Qed.

(** C10. An open timestamp and a generator state exist at which
    [simulate_occupancy] returns exactly 0.0: on Wednesday 2025-01-01 at 08:00
    with the next variate at -8; and a run of [simulate] then returns a record
    whose occupancy is 0 and whose [X3_open] is 1. *)
Theorem occupancy_zero_while_open :
  let ts := datetime_of 2025 1 1 8 0 0 in
  let v := variates_of_list [-8]%R in
  let cfg := with_grid default_config 1 1440 in
  (simulate_open_regime ts = 1%Z /\
   fst (simulate_occupancy ts (simulate_open_regime ts) (academic_intensity cfg)
          (seeded v (seed cfg))) = 0.0%R) /\
  (exists r : Row,
     simulate v cfg (Some ts) = Ok [r] /\
     X1_occupancy r = 0%R /\
     X3_open r = 1%R).
Proof.
  cbv zeta. split.
  - split; [exact regime_eight |]. rewrite regime_eight.
    apply occupancy_eight_clamped. reflexivity.
  - pose proof (simulate_run_grid (variates_of_list [-8]%R)
                  (with_grid default_config 1 1440)
                  (Some (datetime_of 2025 1 1 8 0 0))
                  eq_refl (ex_intro _ 1%Z eq_refl) eq_refl eq_refl) as H.
    apply simulate_of_run in H.
    replace (grid _ _ _) with [datetime_of 2025 1 1 8 0 0] in H
      by (vm_compute; reflexivity).
    cbn [fold_left] in H. rewrite step_rows in H.
    cbn [initial_state st_rows app] in H.
    eexists. split; [exact H |].
    rewrite step_row_unfold. cbn [X1_occupancy X3_open]. split.
    + unfold step_occupancy. rewrite regime_eight.
      cbn [academic_intensity with_grid default_config initial_state st_rng].
      rewrite occupancy_eight_clamped by reflexivity.
      replace 0.0%R with 0%R by lra. apply py_round_0.
    + rewrite regime_eight. reflexivity.
Qed.

(** ** The tabular writer *)

Example dirname_nested : dirname "data/processed/claro.csv" = "data/processed"%string.
Proof. reflexivity. Qed.

Example dirname_bare : dirname "claro.csv" = ""%string.
Proof. reflexivity. Qed.

Example dirname_root : dirname "/claro.csv" = "/"%string.
Proof. reflexivity. Qed.

Lemma keys_row_dict (r : Row) : keys (row_dict r) = field_names.
Proof. reflexivity. Qed.

Lemma dict_to_list_row (r : Row) :
  dict_to_list field_names (row_dict r) = Ok (row_cells r).
Proof. reflexivity. Qed.

Lemma writerows_rows (rows : list Row) (f : file) :
  writerows field_names (map row_dict rows) f = (f ++ map row_cells rows, Ok tt).
Proof.
  revert f. induction rows as [| r rows IH]; intro f; cbn [map writerows].
  - rewrite app_nil_r. reflexivity.
  - rewrite dict_to_list_row, IH, <- app_assoc. reflexivity.
Qed.

Lemma writerows_extends (fieldnames : list string) (rows : list dict) (f : file) :
  exists body : file, fst (writerows fieldnames rows f) = f ++ body.
Proof.
  revert f. induction rows as [| r rows IH]; intro f; cbn [writerows].
  - exists []. rewrite app_nil_r. reflexivity.
  - destruct (dict_to_list fieldnames r) as [fields | e].
    + destruct (IH (f ++ [fields])) as [body Hb]. exists (fields :: body).
      rewrite Hb, <- app_assoc. reflexivity.
    + exists []. rewrite app_nil_r. reflexivity.
Qed.

Lemma mem_In (k : string) (ks : list string) : mem k ks = true <-> In k ks.
Proof.
  unfold mem. rewrite existsb_exists. split.
  - intros [k' [Hin E]]. apply String.eqb_eq in E. subst. exact Hin.
  - intro H. exists k. split; [exact H | apply String.eqb_refl].
Qed.

Lemma dict_to_list_ok (fieldnames : list string) (r : dict) :
  incl (keys r) fieldnames ->
  dict_to_list fieldnames r = Ok (fields_of fieldnames r).
Proof.
  intro H. unfold dict_to_list.
  replace (forallb _ _) with true; [reflexivity |].
  symmetry. apply forallb_forall. intros k Hk. apply mem_In, H, Hk.
Qed.

Lemma dict_to_list_extra (fieldnames : list string) (r : dict) :
  ~ incl (keys r) fieldnames ->
  dict_to_list fieldnames r = Raise ValueError.
Proof.
  intro H. unfold dict_to_list.
  destruct (forallb _ _) eqn:E; [| reflexivity].
  exfalso. apply H. intros k Hk. rewrite forallb_forall in E.
  apply mem_In, E, Hk.
Qed.

Lemma writerows_ok (fieldnames : list string) (rows : list dict) (f : file) :
  Forall (fun r => incl (keys r) fieldnames) rows ->
  writerows fieldnames rows f = (f ++ map (fields_of fieldnames) rows, Ok tt).
Proof.
  intro H. revert f. induction H as [| r rows Hr _ IH]; intro f; cbn [writerows map].
  - rewrite app_nil_r. reflexivity.
  - rewrite (dict_to_list_ok _ _ Hr), IH, <- app_assoc. reflexivity.
Qed.

Lemma writerows_raise (fieldnames : list string) (good rest : list dict)
  (bad : dict) (f : file) :
  Forall (fun r => incl (keys r) fieldnames) good ->
  ~ incl (keys bad) fieldnames ->
  writerows fieldnames (good ++ bad :: rest) f
  = (f ++ map (fields_of fieldnames) good, Raise ValueError).
Proof.
  intros H Hb. revert f.
  induction H as [| r rows Hr _ IH]; intro f; cbn [writerows map app].
  - rewrite (dict_to_list_extra _ _ Hb), app_nil_r. reflexivity.
  - rewrite (dict_to_list_ok _ _ Hr), IH, <- app_assoc. reflexivity.
Qed.

Lemma fields_of_length (fieldnames : list string) (r : dict) :
  List.length (fields_of fieldnames r) = List.length fieldnames.
Proof. unfold fields_of. apply length_map. Qed.

Section Writer.

Variable fs_makedirs : string -> result unit.
Variable fs_open : string -> result unit.

(** A path without directory part: [os.makedirs] raises before the file is
    opened. *)
Lemma write_csv_bare (rows : list dict) (out_path : string) :
  dirname out_path = ""%string ->
  write_csv fs_makedirs fs_open rows out_path = (None, Raise FileNotFoundError).
Proof.
  intro H. unfold write_csv, makedirs. rewrite H. reflexivity.
Qed.

(** A directory that can be made and a file that can be opened: the header,
    then the rows. *)
Lemma write_csv_opened (rows : list dict) (out_path : string) :
  dirname out_path <> ""%string ->
  fs_makedirs (dirname out_path) = Ok tt ->
  fs_open out_path = Ok tt ->
  let fieldnames := match rows with r :: _ => keys r | [] => [] end in
  write_csv fs_makedirs fs_open rows out_path
  = (Some (fst (writerows fieldnames rows (writeheader fieldnames []))),
     snd (writerows fieldnames rows (writeheader fieldnames []))).
Proof.
  intros Hd Hm Ho. cbv zeta. unfold write_csv, makedirs.
  destruct (String.eqb_spec (dirname out_path) "") as [E | _]; [contradiction |].
  rewrite Hm, Ho. destruct (writerows _ _ _). reflexivity.
Qed.

Lemma write_csv_all_rows (r0 : dict) (rows : list dict) (out_path : string) :
  dirname out_path <> ""%string ->
  fs_makedirs (dirname out_path) = Ok tt ->
  fs_open out_path = Ok tt ->
  Forall (fun r => incl (keys r) (keys r0)) rows ->
  write_csv fs_makedirs fs_open (r0 :: rows) out_path
  = (Some (map CStr (keys r0) :: map (fields_of (keys r0)) (r0 :: rows)), Ok tt).
Proof.
  intros Hd Hm Ho H. rewrite (write_csv_opened _ _ Hd Hm Ho). cbv zeta.
  unfold writeheader. rewrite writerows_ok; [reflexivity |].
  constructor; [apply incl_refl | exact H].
Qed.

Lemma write_csv_foreign_key (r0 bad : dict) (good rest : list dict)
  (out_path : string) :
  dirname out_path <> ""%string ->
  fs_makedirs (dirname out_path) = Ok tt ->
  fs_open out_path = Ok tt ->
  Forall (fun r => incl (keys r) (keys r0)) good ->
  ~ incl (keys bad) (keys r0) ->
  write_csv fs_makedirs fs_open (r0 :: good ++ bad :: rest) out_path
  = (Some (map CStr (keys r0) :: map (fields_of (keys r0)) (r0 :: good)),
     Raise ValueError).
Proof.
  intros Hd Hm Ho H Hb. rewrite (write_csv_opened _ _ Hd Hm Ho). cbv zeta.
  unfold writeheader.
  change (r0 :: good ++ bad :: rest) with ((r0 :: good) ++ bad :: rest).
  rewrite writerows_raise; [reflexivity | | exact Hb].
  constructor; [apply incl_refl | exact H].
Qed.

End Writer.

(** C6, as the code has it. For a path whose directory part is not empty,
    can be made and in which the file can be opened: a sequence that begins
    with a record [r] gives a file that begins with a header whose columns are
    the keys of [r] in their order; if the later records have only keys of
    [r], one line per record follows and the call returns; so it is for the
    records of [simulate], under the nine field names in their defined order;
    and for no record at all the writer does not fail: it writes a header with
    no column and returns. For a path without directory part, [os.makedirs]
    raises [FileNotFoundError] and nothing is written, whatever the
    records. *)
Theorem write_csv_header (fs_makedirs fs_open : string -> result unit)
  (out_path : string) :
  dirname out_path <> ""%string ->
  fs_makedirs (dirname out_path) = Ok tt ->
  fs_open out_path = Ok tt ->
  (forall (r : dict) (rows : list dict),
      exists (body : file) (outcome : result unit),
        write_csv fs_makedirs fs_open (r :: rows) out_path
        = (Some (map CStr (keys r) :: body), outcome)) /\
  (forall (r : dict) (rows : list dict),
      Forall (fun r' => incl (keys r') (keys r)) rows ->
      write_csv fs_makedirs fs_open (r :: rows) out_path
      = (Some (map CStr (keys r) :: map (fields_of (keys r)) (r :: rows)), Ok tt)) /\
  (forall (r : Row) (rows : list Row),
      write_csv fs_makedirs fs_open (map row_dict (r :: rows)) out_path
      = (Some (map CStr field_names :: map row_cells (r :: rows)), Ok tt)) /\
  write_csv fs_makedirs fs_open [] out_path = (Some [[]], Ok tt) /\
  (forall (rows : list dict) (bare : string),
      dirname bare = ""%string ->
      write_csv fs_makedirs fs_open rows bare = (None, Raise FileNotFoundError)).
Proof.
  intros Hd Hm Ho. split; [| split; [| split; [| split]]].
  - intros r rows. rewrite (write_csv_opened _ _ _ _ Hd Hm Ho). cbv zeta.
    unfold writeheader.
    destruct (writerows_extends (keys r) (r :: rows) ([] ++ [map CStr (keys r)]))
      as [body Hb].
    exists body. eexists. rewrite Hb. reflexivity.
  - intros r rows H. apply write_csv_all_rows; assumption.
  - intros r rows. rewrite (write_csv_opened _ _ _ _ Hd Hm Ho). cbv zeta.
    unfold writeheader. cbn [map]. rewrite keys_row_dict.
    change (row_dict r :: map row_dict rows) with (map row_dict (r :: rows)).
    rewrite writerows_rows. reflexivity.
  - rewrite (write_csv_opened _ _ _ _ Hd Hm Ho). reflexivity.
  - intros rows bare H. apply write_csv_bare, H.
Qed.

(** One record of [simulate]'s shape, written under [data/]. *)
Lemma write_csv_header_example :
  write_csv fs_grant fs_grant (map row_dict [sample_row]) "data/claro.csv"
  = (Some [map CStr field_names; row_cells sample_row], Ok tt).
Proof.
  refine (proj1 (proj2 (proj2
            (write_csv_header fs_grant fs_grant "data/claro.csv" _ _ _)))
            sample_row []).
  - discriminate.
  - reflexivity.
  - reflexivity.
Defined.

(** Zero records, in a directory that can be made: the writer returns, having
    written an empty header. *)
Lemma write_csv_empty_succeeds :
  write_csv fs_grant fs_grant [] "data/claro.csv" = (Some [[]], Ok tt) /\
  exists u : unit, snd (write_csv fs_grant fs_grant [] "data/claro.csv") = Ok u.
Proof.
  split; [reflexivity | exists tt; reflexivity].
Qed.

(** * Further properties of the code *)

(** ** [clamp] *)

Lemma clamp_inside (x lo hi : R) :
  (lo <= x <= hi)%R -> clamp x lo hi = x.
Proof.
  intro H. unfold clamp, py_min. float_cases; unfold py_max; float_cases; lra.
Qed.

Lemma clamp_above (x lo hi : R) :
  (lo <= hi)%R -> (hi <= x)%R -> clamp x lo hi = hi.
Proof.
  intros H Hx. unfold clamp, py_min. float_cases; unfold py_max; float_cases; lra.
Qed.

(** X1. For bounds in order, [clamp] stays within them, returns a value
    within them unchanged, returns the nearer bound for a value outside, and
    clamping twice is clamping once. *)
Theorem clamp_ordered (x lo hi : R) :
  (lo <= hi)%R ->
  (lo <= clamp x lo hi <= hi)%R /\
  ((lo <= x <= hi)%R -> clamp x lo hi = x) /\
  ((x <= lo)%R -> clamp x lo hi = lo) /\
  ((hi <= x)%R -> clamp x lo hi = hi) /\
  clamp (clamp x lo hi) lo hi = clamp x lo hi.
Proof.
  intro H. pose proof (clamp_bounds x lo hi H) as Hb.
  split; [exact Hb |]. split; [apply clamp_inside |].
  split; [apply clamp_below, H |]. split; [apply clamp_above, H |].
  apply clamp_inside, Hb.
Qed.

(** An occupancy of 250 before the clamp of [simulate_occupancy]. *)
Lemma clamp_ordered_occupancy :
  (0.0 <= 220.0)%R /\ clamp 250 0.0 220.0 = 220.0%R.
Proof.
  split; [lra |].
  apply (proj1 (proj2 (proj2 (proj2 (clamp_ordered 250 0.0 220.0 ltac:(lra)))))).
  lra.
Defined.

(** X2. For bounds out of order, [clamp] returns its lower bound whatever the
    value. *)
Theorem clamp_inverted (x lo hi : R) :
  (hi < lo)%R -> clamp x lo hi = lo.
Proof.
  intro H. unfold clamp, py_min. float_cases; unfold py_max; float_cases; lra.
Qed.

(** Bounds 2 and 1, value 1.5. *)
Lemma clamp_inverted_example : (1 < 2)%R /\ clamp 1.5 2 1 = 2%R.
Proof.
  split; [lra | apply (clamp_inverted 1.5 2 1); lra].
Defined.

(** ** [generate_time_index] *)

Lemma mapM_result {A B : Type} (f : A -> result B) (l : list A) :
  match mapM f l with
  | Ok bs => Forall2 (fun a b => f a = Ok b) l bs
  | Raise e => exists a : A, In a l /\ f a = Raise e
  end.
Proof.
  induction l as [| a l IH]; cbn [mapM]; [constructor |].
  destruct (f a) as [b | e] eqn:E; cbn [bind].
  - destruct (mapM f l) as [bs | e]; cbn [bind].
    + constructor; assumption.
    + destruct IH as [a' [Hin Ha']]. exists a'. split; [right; exact Hin | exact Ha'].
  - exists a. split; [left; reflexivity | exact E].
Qed.

Lemma Forall2_In_left {A B : Type} (P : A -> B -> Prop) (l : list A) (l' : list B)
  (a : A) :
  Forall2 P l l' -> In a l -> exists b : B, In b l' /\ P a b.
Proof.
  induction 1 as [| x y l l' Hxy _ IH]; intro Hin; [destruct Hin |].
  destruct Hin as [<- | Hin].
  - exists y. split; [left; reflexivity | exact Hxy].
  - destruct (IH Hin) as [b [Hb Hab]]. exists b. split; [right; exact Hb | exact Hab].
Qed.

Lemma Forall2_add_minutes (start : datetime) (step : Z) (l : list Z)
  (times : list datetime) :
  Forall2 (fun i t => add_minutes start step i = Ok t) l times ->
  times = map (fun i => mk_datetime (since_min_us start + step * US_PER_MINUTE * i)%Z) l
  /\ forallb in_range times = true.
Proof.
  induction 1 as [| i t l times Hi _ IH]; [split; reflexivity |].
  destruct IH as [-> Hr]. cbn [map forallb].
  apply add_minutes_inv in Hi. destruct Hi as [-> [Hin _]].
  rewrite Hin, Hr. split; reflexivity.
Qed.

(** X3. [generate_time_index] returns the [n_steps] points
    [start + k * step_minutes] minutes, [k = 0, 1, ...] (none when [n_steps]
    is not positive, whatever the step), all of them within the years of
    [datetime], the step being then a [timedelta] within range; otherwise it
    raises [OverflowError], and then [n_steps] is positive and either
    [timedelta(minutes=step_minutes)] is out of range, or for some [k] its
    product by [k] or the point [start + k * step_minutes] is. *)
Theorem generate_time_index_result (start : datetime) (n_steps step_minutes : Z) :
  match generate_time_index start n_steps step_minutes with
  | Ok times =>
      times = grid start n_steps step_minutes /\
      List.length times = Z.to_nat n_steps /\
      forallb in_range times = true /\
      ((n_steps <= 0)%Z \/ timedelta_ok (step_minutes * US_PER_MINUTE) = true)
  | Raise e =>
      e = OverflowError /\
      (0 < n_steps)%Z /\
      (timedelta_ok (step_minutes * US_PER_MINUTE) = false \/
       exists k : Z,
         (0 <= k < n_steps)%Z /\
         (timedelta_ok (step_minutes * US_PER_MINUTE * k) = false \/
          in_range (mk_datetime (since_min_us start + step_minutes * US_PER_MINUTE * k)%Z)
          = false))
  end.
Proof.
  unfold generate_time_index.
  pose proof (mapM_result (fun i => add_minutes start step_minutes i) (range n_steps)) as H.
  destruct (mapM _ _) as [times | e].
  - assert (Hd : (n_steps <= 0)%Z \/ timedelta_ok (step_minutes * US_PER_MINUTE) = true).
    { destruct (Z_le_gt_dec n_steps 0) as [Hn | Hn]; [left; exact Hn | right].
      assert (H0 : In 0%Z (range n_steps)) by (apply in_range_inv; lia).
      destruct (Forall2_In_left _ _ _ _ H H0) as [t [_ Ht]].
      apply add_minutes_inv in Ht. apply Ht. }
    apply Forall2_add_minutes in H. destruct H as [-> Hr].
    fold (grid start n_steps step_minutes).
    split; [reflexivity |]. split; [apply grid_length |]. split; [exact Hr | exact Hd].
  - destruct H as [k [Hk E]]. apply in_range_inv in Hk.
    apply add_minutes_raise in E. destruct E as [-> E].
    split; [reflexivity |]. split; [lia |].
    destruct E as [E | E]; [left; exact E | right].
    exists k. split; [exact Hk | exact E].
Qed.

Example time_index_step_too_large :
  generate_time_index default_start 1 1440000000000 = Raise OverflowError.
Proof. vm_compute. reflexivity. Qed.

Example time_index_largest_step :
  generate_time_index default_start 1 1439999999999 = Ok [default_start].
Proof. vm_compute. reflexivity. Qed.

Example time_index_no_step :
  generate_time_index default_start 0 1440000000000 = Ok [].
Proof. vm_compute. reflexivity. Qed.

(** ** The number of steps for any [freq_minutes] *)

Lemma Int_part_div (a b : Z) :
  (0 <= a)%Z -> (0 < b)%Z -> Int_part (IZR a / IZR b) = (a / b)%Z.
Proof.
  intros Ha Hb. symmetry. apply Int_part_spec.
  pose proof (Z.div_mod a b ltac:(lia)) as E.
  pose proof (Z.mod_pos_bound a b Hb) as [Hr1 Hr2].
  apply IZR_le in Hr1. apply IZR_lt in Hr2.
  assert (HB : (0 < IZR b)%R) by (apply IZR_lt; exact Hb).
  assert (Ex : (IZR a / IZR b = IZR (a / b) + IZR (a mod b) / IZR b)%R).
  { rewrite E at 1. rewrite plus_IZR, mult_IZR. field. lra. }
  assert (Ey : (IZR (a mod b) / IZR b * IZR b = IZR (a mod b))%R) by (field; lra).
  rewrite Ex. set (y := (IZR (a mod b) / IZR b)%R) in *.
  split; nra.
Qed.

Lemma steps_per_day_quot (f : Z) :
  f <> 0%Z -> steps_per_day_of f = Ok (Z.quot (24 * 60) f).
Proof.
  intro Hf. unfold steps_per_day_of.
  destruct (Z.eqb_spec f 0) as [E | _]; [contradiction |].
  f_equal. unfold py_int.
  destruct (Z.lt_trichotomy f 0) as [Hneg | [E | Hpos]]; [| contradiction |].
  - assert (HF : (IZR f < 0)%R) by (apply IZR_lt; exact Hneg).
    assert (Hx : (IZR (24 * 60) / IZR f < 0)%R).
    { assert (Ex : (IZR (24 * 60) / IZR f * IZR f = IZR (24 * 60))%R) by (field; lra).
      assert (H0 : (0 < IZR (24 * 60))%R) by (apply IZR_lt; lia).
      set (x := (IZR (24 * 60) / IZR f)%R) in *. nra. }
    apply ltb_true in Hx. rewrite Hx.
    replace (- (IZR (24 * 60) / IZR f))%R with (IZR (24 * 60) / IZR (- f))%R.
    + rewrite Int_part_div by lia.
      rewrite <- (Z.opp_involutive f) at 2. rewrite Z.quot_opp_r by lia.
      rewrite Z.quot_div_nonneg by lia. reflexivity.
    + rewrite opp_IZR. field. lra.
  - assert (HF : (0 < IZR f)%R) by (apply IZR_lt; exact Hpos).
    assert (Hx : (0 <= IZR (24 * 60) / IZR f)%R).
    { unfold Rdiv. apply Rmult_le_pos; [apply IZR_le; lia |].
      apply Rlt_le, Rinv_0_lt_compat. exact HF. }
    apply ltb_false in Hx. rewrite Hx.
    rewrite Int_part_div by lia. rewrite Z.quot_div_nonneg by lia. reflexivity.
Qed.

(** X4. [int((24 * 60) / freq_minutes)] is 1440 divided by [freq_minutes]
    and truncated toward zero for every non-zero [freq_minutes], divisor of
    1440 or not, and raises [ZeroDivisionError] for zero. *)
Theorem steps_per_day_truncates (f : Z) :
  steps_per_day_of f
  = if (f =? 0)%Z then Raise ZeroDivisionError else Ok (Z.quot (24 * 60) f).
Proof.
  destruct (Z.eqb_spec f 0) as [-> | Hf]; [reflexivity |].
  apply steps_per_day_quot, Hf.
Qed.

Section RunsOfAnyGrid.

Variable variates : Z -> nat -> R.

Lemma simulate_run_cases (cfg : SimConfig) (start : option datetime) :
  let n := (n_days cfg * Z.quot (24 * 60) (freq_minutes cfg))%Z in
  let times := grid (start_or_default start) n (freq_minutes cfg) in
  (freq_minutes cfg = 0%Z /\
   simulate_run variates cfg start = Raise ZeroDivisionError) \/
  (freq_minutes cfg <> 0%Z /\ forallb in_range times = false /\
   simulate_run variates cfg start = Raise OverflowError) \/
  (freq_minutes cfg <> 0%Z /\ forallb in_range times = true /\
   simulate_run variates cfg start
   = Ok (fold_left (simulate_step cfg) times (initial_state variates cfg))).
Proof.
  cbv zeta. unfold simulate_run. fold (start_or_default start).
  destruct (Z.eq_dec (freq_minutes cfg) 0) as [E | Hf].
  - left. rewrite E. auto.
  - right. rewrite (steps_per_day_quot _ Hf). cbn [bind].
    set (n := (n_days cfg * Z.quot (24 * 60) (freq_minutes cfg))%Z).
    pose proof (mapM_result (fun i => add_minutes (start_or_default start)
                                        (freq_minutes cfg) i) (range n)) as H.
    unfold generate_time_index.
    destruct (mapM _ _) as [times | e]; cbn [bind].
    + right. apply Forall2_add_minutes in H. destruct H as [-> Hr].
      fold (grid (start_or_default start) n (freq_minutes cfg)) in *.
      split; [exact Hf |]. split; [exact Hr | reflexivity].
    + left. destruct H as [k [Hk E]].
      pose proof (add_minutes_raise _ _ _ _ E) as [-> _].
      split; [exact Hf |]. split; [| reflexivity].
      apply not_true_is_false. intro Hall. rewrite forallb_forall in Hall.
      pose proof Hk as Hk'. apply in_range_inv in Hk'.
      assert (Hgrid : forall j : Z, In j (range n) ->
                in_range (mk_datetime (since_min_us (start_or_default start)
                                       + freq_minutes cfg * US_PER_MINUTE * j)) = true).
      { intros j Hj. apply Hall. unfold grid. apply in_map_iff.
        exists j. split; [reflexivity | exact Hj]. }
      assert (Hs : in_range (start_or_default start) = true).
      { pose proof (Hgrid 0%Z ltac:(apply in_range_inv; lia)) as H0.
        rewrite Z.mul_0_r, Z.add_0_r in H0. destruct (start_or_default start).
        exact H0. }
      assert (Hq : Z.quot (24 * 60) (freq_minutes cfg) <> 0%Z).
      { intro Hq0. unfold n in Hk'. rewrite Hq0 in Hk'. lia. }
      assert (Hsmall : (- (24 * 60) <= freq_minutes cfg <= 24 * 60)%Z).
      { rewrite Z.quot_small_iff in Hq by exact Hf. lia. }
      rewrite (add_minutes_ok _ _ _ Hs (timedelta_ok_minutes _ Hsmall) (Hgrid k Hk)) in E.
      discriminate E.
Qed.

Lemma simulate_cases (cfg : SimConfig) (start : option datetime) :
  let n := (n_days cfg * Z.quot (24 * 60) (freq_minutes cfg))%Z in
  let times := grid (start_or_default start) n (freq_minutes cfg) in
  (freq_minutes cfg = 0%Z /\
   simulate variates cfg start = Raise ZeroDivisionError) \/
  (freq_minutes cfg <> 0%Z /\ forallb in_range times = false /\
   simulate variates cfg start = Raise OverflowError) \/
  (freq_minutes cfg <> 0%Z /\ forallb in_range times = true /\
   simulate variates cfg start
   = Ok (st_rows (fold_left (simulate_step cfg) times (initial_state variates cfg)))).
Proof.
  cbv zeta. unfold simulate.
  destruct (simulate_run_cases cfg start) as [[Hf E] | [[Hf [Hr E]] | [Hf [Hr E]]]];
    cbv zeta in E, Hr || cbv zeta in E; rewrite E; cbn [bind]; auto.
Qed.

End RunsOfAnyGrid.

(** ** Failures and sizes of a run *)

(** X5. [simulate] raises [ZeroDivisionError] exactly when [freq_minutes] is
    0, raises [OverflowError] exactly when [freq_minutes] is not 0 and a point
    of its grid is outside the years of [datetime], and raises nothing else. *)
Theorem simulate_failures (variates : Z -> nat -> R) (cfg : SimConfig)
  (start : option datetime) :
  let n := (n_days cfg * Z.quot (24 * 60) (freq_minutes cfg))%Z in
  let times := grid (start_or_default start) n (freq_minutes cfg) in
  (simulate variates cfg start = Raise ZeroDivisionError <-> freq_minutes cfg = 0%Z) /\
  (simulate variates cfg start = Raise OverflowError
   <-> freq_minutes cfg <> 0%Z /\ forallb in_range times = false) /\
  simulate variates cfg start <> Raise ValueError.
Proof.
  cbv zeta.
  destruct (simulate_cases variates cfg start) as [[Hf E] | [[Hf [Hr E]] | [Hf [Hr E]]]];
    rewrite E; (split; [| split]); try discriminate;
    split; intro H; try discriminate; try reflexivity; try contradiction; auto.
  - destruct H as [H _]. contradiction.
  - destruct H as [_ H]. rewrite Hr in H. discriminate.
Qed.

(** X6. When [freq_minutes] is not 0 and [n_days] times the truncated
    quotient of 1440 by [freq_minutes] is not positive (no day, a step longer
    than a day, or opposite signs), [simulate] returns no record and raises
    nothing, whatever the start. *)
Theorem simulate_no_steps (variates : Z -> nat -> R) (cfg : SimConfig)
  (start : option datetime) :
  freq_minutes cfg <> 0%Z ->
  (n_days cfg * Z.quot (24 * 60) (freq_minutes cfg) <= 0)%Z ->
  simulate variates cfg start = Ok [].
Proof.
  intros Hf Hn.
  destruct (simulate_cases variates cfg start) as [[Hf' E] | [[_ [Hr E]] | [_ [Hr E]]]].
  - contradiction.
  - unfold grid, range in Hr.
    replace (Z.to_nat _) with 0%nat in Hr by lia. discriminate.
  - rewrite E. unfold grid, range.
    replace (Z.to_nat _) with 0%nat by lia. reflexivity.
Qed.

(** A step of 2000 minutes, from the last representable day. *)
Lemma simulate_no_steps_long_step :
  simulate (variates_of_list []) (with_grid default_config 60 2000)
    (Some (datetime_of 9999 12 31 23 0 0)) = Ok [].
Proof.
  apply (simulate_no_steps (variates_of_list []) (with_grid default_config 60 2000)).
  - discriminate.
  - discriminate.
Defined.

(** X7. Whatever [freq_minutes] and [n_days], a run of [simulate] that
    returns has as many records as [n_days] times the truncated quotient of
    1440 by [freq_minutes] (none if that product is negative), stamped with the
    ISO renderings of the grid points. *)
Theorem simulate_record_count (variates : Z -> nat -> R) (cfg : SimConfig)
  (start : option datetime) (rows : list Row) :
  simulate variates cfg start = Ok rows ->
  let n := (n_days cfg * Z.quot (24 * 60) (freq_minutes cfg))%Z in
  List.length rows = Z.to_nat n /\
  map timestamp rows
  = map isoformat (grid (start_or_default start) n (freq_minutes cfg)).
Proof.
  intro H. cbv zeta.
  destruct (simulate_cases variates cfg start) as [[_ E] | [[_ [_ E]] | [_ [_ E]]]];
    rewrite E in H; try discriminate.
  injection H as <-. split.
  - rewrite loop_rows_length, grid_length. reflexivity.
  - rewrite loop_timestamps. reflexivity.
Qed.

(** A step of 7 minutes, which does not divide a day: 205 records for one
    day. *)
Lemma simulate_record_count_seven :
  exists rows : list Row,
    simulate (variates_of_list []) (with_grid default_config 1 7) None = Ok rows /\
    List.length rows = 205%nat.
Proof.
  destruct (simulate_cases (variates_of_list []) (with_grid default_config 1 7) None)
    as [[Hf _] | [[_ [Hr _]] | [_ [_ E]]]].
  - discriminate Hf.
  - exfalso. revert Hr. vm_compute. discriminate.
  - eexists. split; [exact E |].
    apply (simulate_record_count _ _ _ _ E).
Defined.

(** ** A longer horizon extends a shorter one *)

Lemma range_app (n m : Z) :
  (n <= m)%Z ->
  range m = range n ++ map Z.of_nat (seq (Z.to_nat n) (Z.to_nat m - Z.to_nat n)).
Proof.
  intro H. unfold range.
  replace (Z.to_nat m) with (Z.to_nat n + (Z.to_nat m - Z.to_nat n))%nat at 1 by lia.
  rewrite seq_app, map_app. reflexivity.
Qed.

Lemma grid_app (start : datetime) (n m step : Z) :
  (n <= m)%Z ->
  exists more : list datetime, grid start m step = grid start n step ++ more.
Proof.
  intro H. unfold grid. rewrite (range_app n m H), map_app. eexists. reflexivity.
Qed.

Lemma loop_rows_extend (cfg : SimConfig) (times : list datetime) (st : LoopState) :
  exists more : list Row,
    st_rows (fold_left (simulate_step cfg) times st) = st_rows st ++ more.
Proof.
  revert st. induction times as [| ts times IH]; intro st; cbn [fold_left].
  - exists []. rewrite app_nil_r. reflexivity.
  - destruct (IH (simulate_step cfg st ts)) as [more Hm].
    rewrite Hm, step_rows, <- app_assoc. eexists. reflexivity.
Qed.

Lemma simulate_step_with_grid (cfg : SimConfig) (d f : Z) :
  simulate_step (with_grid cfg d f) = simulate_step cfg.
Proof. reflexivity. Qed.

(** X8. With the same seed, start and [freq_minutes > 0], the records of a
    run over [d] days are the first records of the run over [d' >= d] days:
    lengthening the horizon changes no earlier record. *)
Theorem simulate_prefix (variates : Z -> nat -> R) (cfg : SimConfig) (d d' : Z)
  (start : option datetime) (rows rows' : list Row) :
  (0 < freq_minutes cfg)%Z ->
  (d <= d')%Z ->
  simulate variates (with_grid cfg d (freq_minutes cfg)) start = Ok rows ->
  simulate variates (with_grid cfg d' (freq_minutes cfg)) start = Ok rows' ->
  rows = firstn (List.length rows) rows'.
Proof.
  intros Hf Hd H H'.
  destruct (simulate_cases variates (with_grid cfg d (freq_minutes cfg)) start)
    as [[_ E] | [[_ [_ E]] | [_ [_ E]]]]; rewrite E in H; try discriminate.
  destruct (simulate_cases variates (with_grid cfg d' (freq_minutes cfg)) start)
    as [[_ E'] | [[_ [_ E']] | [_ [_ E']]]]; rewrite E' in H'; try discriminate.
  injection H as <-. injection H' as <-.
  cbn [n_days freq_minutes with_grid]. rewrite !simulate_step_with_grid.
  change (initial_state variates (with_grid cfg d' (freq_minutes cfg)))
    with (initial_state variates (with_grid cfg d (freq_minutes cfg))).
  change (24 * 60)%Z with 1440%Z.
  set (q := Z.quot 1440 (freq_minutes cfg)).
  assert (Hq : (0 <= q)%Z) by (apply Z.quot_pos; lia).
  destruct (grid_app (start_or_default start) (d * q) (d' * q) (freq_minutes cfg))
    as [more Hm]; [nia |].
  rewrite Hm, fold_left_app.
  destruct (loop_rows_extend cfg more
              (fold_left (simulate_step cfg)
                 (grid (start_or_default start) (d * q) (freq_minutes cfg))
                 (initial_state variates (with_grid cfg d (freq_minutes cfg)))))
    as [extra He].
  rewrite He, firstn_app, Nat.sub_diag, firstn_all, firstn_O, app_nil_r. reflexivity.
Qed.

(** One day and two days of the default configuration. *)
Lemma simulate_prefix_two_days :
  exists rows rows' : list Row,
    simulate (variates_of_list [0.3; -1.2; 0.5]%R) (with_grid default_config 1 60) None
    = Ok rows /\
    simulate (variates_of_list [0.3; -1.2; 0.5]%R) (with_grid default_config 2 60) None
    = Ok rows' /\
    rows = firstn (List.length rows) rows'.
Proof.
  pose proof (simulate_run_grid (variates_of_list [0.3; -1.2; 0.5]%R)
                (with_grid default_config 1 60) None
                eq_refl (ex_intro _ 24%Z eq_refl) eq_refl eq_refl) as H1.
  pose proof (simulate_run_grid (variates_of_list [0.3; -1.2; 0.5]%R)
                (with_grid default_config 2 60) None
                eq_refl (ex_intro _ 24%Z eq_refl) eq_refl eq_refl) as H2.
  apply simulate_of_run in H1, H2.
  eexists. eexists. split; [exact H1 |]. split; [exact H2 |].
  apply (simulate_prefix (variates_of_list [0.3; -1.2; 0.5]%R) default_config 1 2 None
           _ _ eq_refl ltac:(discriminate) H1 H2).
Defined.

(** ** The regime repeats every week *)

Lemma week_shift_fields (ts : datetime) (k : Z) :
  let ts' := mk_datetime (since_min_us ts + 7 * 24 * 60 * US_PER_MINUTE * k) in
  weekday ts' = weekday ts /\ time_of_day_us ts' = time_of_day_us ts.
Proof.
  cbv zeta. unfold weekday, toordinal, time_of_day_us.
  generalize (since_min_us ts). intro u.
  change (since_min_us (mk_datetime (u + 7 * 24 * 60 * US_PER_MINUTE * k)))
    with (u + 7 * 24 * 60 * US_PER_MINUTE * k)%Z.
  replace (u + 7 * 24 * 60 * US_PER_MINUTE * k)%Z with (u + (7 * k) * US_PER_DAY)%Z
    by (unfold US_PER_DAY, US_PER_HOUR, US_PER_MINUTE; ring).
  assert (HD : US_PER_DAY <> 0%Z) by discriminate.
  rewrite Z.div_add, Z.mod_add by exact HD. split; [| reflexivity].
  replace (u / US_PER_DAY + 7 * k + 1 + 6)%Z
    with (u / US_PER_DAY + 1 + 6 + k * 7)%Z by ring.
  rewrite Z.mod_add by discriminate. reflexivity.
Qed.

(** X9. A timestamp moved by whole weeks has the regime of the original
    timestamp. *)
Theorem regime_weekly (ts ts' : datetime) (k : Z) :
  add_minutes ts (7 * 24 * 60) k = Ok ts' ->
  simulate_open_regime ts' = simulate_open_regime ts.
Proof.
  intro H.
  apply add_minutes_inv in H. destruct H as [Heq _].
  rewrite Heq, !simulate_open_regime_schedule.
  unfold scheduled_openb.
  destruct (week_shift_fields ts k) as [Hw Ht]. rewrite Hw, Ht. reflexivity.
Qed.

(** Three weeks after Wednesday 2025-01-01 at 09:00. *)
Lemma regime_weekly_example :
  simulate_open_regime (datetime_of 2025 1 22 9 0 0)
  = simulate_open_regime (datetime_of 2025 1 1 9 0 0).
Proof.
  apply (regime_weekly (datetime_of 2025 1 1 9 0 0) (datetime_of 2025 1 22 9 0 0) 3).
  vm_compute. reflexivity.
Defined.

(** ** The range of the outdoor temperature *)

Lemma scaled_sin_bound (a x : R) : (- Rabs a <= a * sin x <= Rabs a)%R.
Proof.
  pose proof (SIN_bound x) as [H1 H2].
  unfold Rabs. destruct (Rcase_abs a); split; nra.
Qed.

Lemma outdoor_temp_bounds (ts : datetime) (sa da : R) :
  (8.0 - (Rabs sa + Rabs da) <= simulate_outdoor_temp ts sa da
   <= 8.0 + (Rabs sa + Rabs da))%R.
Proof.
  unfold simulate_outdoor_temp. cbv zeta.
  pose proof (scaled_sin_bound sa (2 * PI * (IZR (tm_yday ts) / 365.0))).
  pose proof (scaled_sin_bound da (2 * PI * ((hour_of ts - 5.0) / 24.0))).
  lra.
Qed.

Lemma outdoor_temp_bounds_default (ts : datetime) :
  (-4.5 <= simulate_outdoor_temp ts 9.0 3.5 <= 20.5)%R.
Proof.
  pose proof (outdoor_temp_bounds ts 9.0 3.5)%R as H.
  rewrite (Rabs_right 9.0), (Rabs_right 3.5) in H by lra. lra.
Qed.

(** X10. The outdoor temperature never departs from 8.0 by more than the
    sum of the two amplitudes, in absolute value; with the amplitudes that
    [simulate] uses it stays in [[-4.5, 20.5]]. *)
Theorem outdoor_temp_range (ts : datetime) (seasonal_amp daily_amp : R) :
  (8.0 - (Rabs seasonal_amp + Rabs daily_amp)
   <= simulate_outdoor_temp ts seasonal_amp daily_amp
   <= 8.0 + (Rabs seasonal_amp + Rabs daily_amp))%R /\
  (-4.5 <= simulate_outdoor_temp ts 9.0 3.5 <= 20.5)%R.
Proof.
  split; [apply outdoor_temp_bounds | apply outdoor_temp_bounds_default].
Qed.

Lemma step_pressure_range (ts : datetime) :
  (0 <= step_pressure ts <= 24.5)%R.
Proof.
  pose proof (outdoor_temp_bounds_default ts) as H.
  unfold step_pressure, temp_pressure. float_cases; lra.
Qed.

(** ** More invariants of the records *)

Lemma step_row_environment (cfg : SimConfig) (st : LoopState) (ts : datetime) :
  (-4.5 <= X2_temp_out (step_row cfg st ts) <= 20.5)%R /\
  (0 <= X2_temp_pressure (step_row cfg st ts) <= 24.5)%R.
Proof.
  rewrite step_row_unfold. cbn [X2_temp_out X2_temp_pressure].
  pose proof (outdoor_temp_bounds_default ts) as Ht.
  pose proof (step_pressure_range ts) as Hp.
  pose proof (py_round_bounds (simulate_outdoor_temp ts 9.0 3.5) 3 (-4500) 20500) as H1.
  pose proof (py_round_bounds (step_pressure ts) 3 0 24500) as H2.
  cbn [pow] in H1, H2.
  assert (H1' := H1 ltac:(lra)). assert (H2' := H2 ltac:(lra)).
  split; lra.
Qed.

(** X11. Every record of [simulate] has an outdoor temperature in
    [[-4.5, 20.5]] and a temperature pressure in [[0, 24.5]]. *)
Theorem simulate_environment_bounds (variates : Z -> nat -> R) (cfg : SimConfig)
  (start : option datetime) (rows : list Row) :
  simulate variates cfg start = Ok rows ->
  Forall (fun r => (-4.5 <= X2_temp_out r <= 20.5)%R /\
                   (0 <= X2_temp_pressure r <= 24.5)%R) rows.
Proof.
  intro H. apply simulate_inv in H. destruct H as [times ->].
  apply loop_rows_invariant; [apply step_row_environment | constructor].
Qed.

(** The first day of the default configuration. *)
Lemma simulate_environment_bounds_first_day :
  exists rows : list Row,
    simulate (variates_of_list [0.3; -1.2; 0.5]%R) (with_grid default_config 1 60) None
    = Ok rows /\
    Forall (fun r => (-4.5 <= X2_temp_out r <= 20.5)%R /\
                     (0 <= X2_temp_pressure r <= 24.5)%R) rows.
Proof.
  pose proof (simulate_run_grid (variates_of_list [0.3; -1.2; 0.5]%R)
                (with_grid default_config 1 60) None
                eq_refl (ex_intro _ 24%Z eq_refl) eq_refl eq_refl) as H.
  apply simulate_of_run in H.
  eexists. split; [exact H |].
  apply (simulate_environment_bounds _ _ _ _ H).
Defined.

(** ** Occupancy and academic intensity *)

Lemma clamp_monotone (x y lo hi : R) :
  (x <= y)%R -> (clamp x lo hi <= clamp y lo hi)%R.
Proof.
  intro H. unfold clamp, py_min. float_cases; unfold py_max; float_cases; lra.
Qed.

(** X13. For the same timestamp, regime and generator, a higher academic
    intensity never gives a lower occupancy, and leaves the generator in the
    same state. *)
Theorem occupancy_monotone_intensity (ts : datetime) (open_regime : Z)
  (ai ai' : R) (rng : Rng) :
  (ai <= ai')%R ->
  (fst (simulate_occupancy ts open_regime ai rng)
   <= fst (simulate_occupancy ts open_regime ai' rng))%R /\
  snd (simulate_occupancy ts open_regime ai rng)
  = snd (simulate_occupancy ts open_regime ai' rng).
Proof.
  intro H. destruct (Z.eq_dec open_regime 0) as [-> | Hx].
  - rewrite !simulate_occupancy_closed. cbn [fst snd]. split; [lra | reflexivity].
  - rewrite !(simulate_occupancy_open _ _ _ _ Hx). cbn [fst snd].
    split; [| reflexivity]. apply clamp_monotone.
    pose proof (exp_pos (- (hour_of ts - 13.0) ^ 2 / (2 * 3.5 ^ 2))) as H1.
    pose proof (exp_pos (- (hour_of ts - 18.0) ^ 2 / (2 * 2.8 ^ 2))) as H2.
    set (e1 := exp (- (hour_of ts - 13.0) ^ 2 / (2 * 3.5 ^ 2))) in *.
    set (e2 := exp (- (hour_of ts - 18.0) ^ 2 / (2 * 2.8 ^ 2))) in *.
    apply Rplus_le_compat_r.
    assert (Hp : (0 <= 0.6 * e1 + 0.4 * e2)%R) by lra.
    destruct (weekday ts <=? 4)%Z; nra.
Qed.

(** Vacation and exam intensities at noon, Wednesday 2025-01-01. *)
Lemma occupancy_monotone_intensity_noon :
  (fst (simulate_occupancy (datetime_of 2025 1 1 12 0 0) 1 0.6
          (seeded (variates_of_list [0.3]%R) 123))
   <= fst (simulate_occupancy (datetime_of 2025 1 1 12 0 0) 1 1.2
             (seeded (variates_of_list [0.3]%R) 123)))%R.
Proof.
  apply (occupancy_monotone_intensity (datetime_of 2025 1 1 12 0 0) 1 0.6 1.2). lra.
Defined.

(** ** Comfort pressure at the edges *)

(** X14. [temp_pressure] is never negative, and it is 0 exactly when the
    temperature lies within the band, bounds included; with the bounds out of
    order it is therefore never 0. *)
Theorem temp_pressure_zero_iff (t low high : R) :
  (0 <= temp_pressure t low high)%R /\
  (temp_pressure t low high = 0%R <-> (low <= t <= high)%R).
Proof.
  split; [apply temp_pressure_nonneg |].
  unfold temp_pressure. float_cases; split; intro H; lra.
Qed.

Lemma _temp_pressure_single (t low high : R) :
  _temp_pressure [t] low high
  = [((if ltb (low - t) 0 then 0 else low - t)
      + (if ltb (t - high) 0 then 0 else t - high))%R].
Proof. apply _temp_pressure_map. Qed.

(** X15. With the bounds out of order, at a temperature strictly between
    them, the feature builder's [_temp_pressure] gives the width of the
    inverted band, [low - high], where the simulator's [temp_pressure] gives
    [low - t]: the two differ. *)
Theorem temp_pressure_inverted_band (t low high : R) :
  (high < t < low)%R ->
  _temp_pressure [t] low high = [(low - high)%R] /\
  temp_pressure t low high = (low - t)%R /\
  (low - high <> low - t)%R.
Proof.
  intro H. rewrite _temp_pressure_single. unfold temp_pressure.
  float_cases; try lra. split; [f_equal; lra |]. split; [reflexivity | lra].
Qed.

(** The default bounds exchanged, at 21 degrees. *)
Lemma temp_pressure_inverted_band_example :
  _temp_pressure [21]%R 23 20 = [3]%R /\ temp_pressure 21 23 20 = 2%R.
Proof.
  destruct (temp_pressure_inverted_band 21 23 20 ltac:(lra)) as [H1 [H2 _]].
  split.
  - rewrite H1. f_equal. lra.
  - rewrite H2. lra.
Defined.

(** ** Demand and inertia without noise *)

Lemma step_demand_nonneg (cfg : SimConfig) (st : LoopState) (ts : datetime) :
  (0 <= building_factor_x4 cfg)%R ->
  (0 <= base_kwh_when_closed cfg)%R ->
  (0 <= base_kwh_when_open cfg)%R ->
  (0 <= activation_to_kwh cfg)%R ->
  (0 <= direct_temp_to_kwh cfg)%R ->
  (0 <= step_demand cfg st ts)%R.
Proof.
  intros Hb Hc Ho Ha Hd.
  pose proof (step_activation_bounds cfg st ts) as [Hm _].
  pose proof (step_pressure_range ts) as [Hp _].
  unfold step_demand, demand. cbv zeta.
  fold (step_activation cfg st ts).
  set (m := step_activation cfg st ts) in *. set (p := step_pressure ts) in *.
  destruct (simulate_open_regime ts =? 1)%Z; nra.
Qed.

(** X16. With non-negative baselines, building factor and energy
    coefficients, the demand of a step is not negative; if moreover
    [inertia_phi] is in [[0, 1]], the previous energy is not negative and the
    noise of the step is 0, the new energy is the weighted mean
    [phi * y_prev + (1 - phi) * demand], between the previous energy and the
    demand, and the floor at 0 changes nothing. *)
Theorem inertia_blend (cfg : SimConfig) (st : LoopState) (ts : datetime) :
  (0 <= building_factor_x4 cfg)%R ->
  (0 <= base_kwh_when_closed cfg)%R ->
  (0 <= base_kwh_when_open cfg)%R ->
  (0 <= activation_to_kwh cfg)%R ->
  (0 <= direct_temp_to_kwh cfg)%R ->
  (0 <= inertia_phi cfg <= 1)%R ->
  (0 <= st_y_prev st)%R ->
  step_noise cfg st ts = 0%R ->
  (0 <= step_demand cfg st ts)%R /\
  st_y_prev (simulate_step cfg st ts)
  = (inertia_phi cfg * st_y_prev st + (1 - inertia_phi cfg) * step_demand cfg st ts)%R /\
  (Rmin (st_y_prev st) (step_demand cfg st ts)
   <= st_y_prev (simulate_step cfg st ts)
   <= Rmax (st_y_prev st) (step_demand cfg st ts))%R.
Proof.
  intros Hb Hc Ho Ha Hd Hphi Hy Hn.
  pose proof (step_demand_nonneg cfg st ts Hb Hc Ho Ha Hd) as HD.
  split; [exact HD |].
  rewrite step_y, Hn.
  set (phi := inertia_phi cfg) in *. set (y := st_y_prev st) in *.
  set (D := step_demand cfg st ts) in *.
  assert (Hm : (0 <= phi * y + (1 - phi) * D)%R) by nra.
  assert (E : py_max 0.0 (phi * y + (1.0 - phi) * D + 0) = (phi * y + (1 - phi) * D)%R).
  { unfold py_max. float_cases; lra. }
  rewrite E. split; [reflexivity |].
  unfold Rmin, Rmax. destruct (Rle_dec y D); split; nra.
Qed.

(** The first step of the default run when the generator yields zeros. *)
Lemma inertia_blend_first_step :
  let st0 := initial_state (variates_of_list []) default_config in
  st_y_prev (simulate_step default_config st0 default_start)
  = (0.75 * 8.0 + (1 - 0.75) * step_demand default_config st0 default_start)%R.
Proof.
  cbv zeta.
  refine (proj1 (proj2 (inertia_blend default_config
                          (initial_state (variates_of_list []) default_config)
                          default_start _ _ _ _ _ _ _ _)));
    try (cbn [building_factor_x4 base_kwh_when_closed base_kwh_when_open
              activation_to_kwh direct_temp_to_kwh inertia_phi default_config
              initial_state st_y_prev]; lra).
  rewrite step_noise_draw.
  cbn [initial_state st_rng seeded rng_seq rng_pos]. unfold variates_of_list.
  replace (nth _ [] 0%R) with 0%R; [lra |].
  destruct (0 + (step_draws default_start - 1))%nat; reflexivity.
Defined.

(** ** The writer on arbitrary dictionaries *)

(** X17. For a path whose directory part is not empty, can be made and in
    which the file can be opened: when every later record has only keys of
    the first record, [write_csv] returns normally; the file holds the header
    and one line per record, each with as many fields as the header, and a
    column whose key a record lacks holds the empty string in that record's
    line. *)
Theorem write_csv_success (fs_makedirs fs_open : string -> result unit)
  (out_path : string) (r0 : dict) (rows : list dict) :
  dirname out_path <> ""%string ->
  fs_makedirs (dirname out_path) = Ok tt ->
  fs_open out_path = Ok tt ->
  Forall (fun r => incl (keys r) (keys r0)) rows ->
  write_csv fs_makedirs fs_open (r0 :: rows) out_path
  = (Some (map CStr (keys r0) :: map (fields_of (keys r0)) (r0 :: rows)), Ok tt) /\
  Forall (fun line => List.length line = List.length (keys r0))
         (map CStr (keys r0) :: map (fields_of (keys r0)) (r0 :: rows)) /\
  (forall (r : dict) (i : nat) (k : string),
      In r rows -> nth_error (keys r0) i = Some k -> get r k = None ->
      nth_error (fields_of (keys r0) r) i = Some (CStr "")).
Proof.
  intros Hd Hm Ho H.
  split; [apply write_csv_all_rows; assumption |]. split.
  - constructor; [apply length_map |].
    apply Forall_forall. intros line Hl. apply in_map_iff in Hl.
    destruct Hl as [r [<- _]]. apply fields_of_length.
  - intros r i k _ Hk Hg. unfold fields_of.
    rewrite (map_nth_error _ _ _ Hk), Hg. reflexivity.
Qed.

(** A second record that lacks the key of the second column. *)
Lemma write_csv_success_missing_key :
  write_csv fs_grant fs_grant
    [ [("a", CNum 1); ("b", CNum 2)]; [("a", CNum 3)] ]%string "out/t.csv"
  = (Some [ [CStr "a"; CStr "b"]; [CNum 1; CNum 2]; [CNum 3; CStr ""] ]%string, Ok tt).
Proof.
  refine (proj1 (write_csv_success fs_grant fs_grant "out/t.csv"
                   [("a", CNum 1%R); ("b", CNum 2%R)]%string
                   [ [("a", CNum 3%R)]%string ] _ _ _ _)).
  - discriminate.
  - reflexivity.
  - reflexivity.
  - constructor; [| constructor]. intros k [<- | []]. left. reflexivity.
Defined.

(** X18. For a path whose directory part is not empty, can be made and in
    which the file can be opened: when a later record has a key that the
    first record lacks, [write_csv] raises [ValueError]; the file then holds
    the header and the lines of the records before the first such record,
    which stay written. *)
Theorem write_csv_extra_key (fs_makedirs fs_open : string -> result unit)
  (out_path : string) (r0 bad : dict) (good rest : list dict) :
  dirname out_path <> ""%string ->
  fs_makedirs (dirname out_path) = Ok tt ->
  fs_open out_path = Ok tt ->
  Forall (fun r => incl (keys r) (keys r0)) good ->
  ~ incl (keys bad) (keys r0) ->
  write_csv fs_makedirs fs_open (r0 :: good ++ bad :: rest) out_path
  = (Some (map CStr (keys r0) :: map (fields_of (keys r0)) (r0 :: good)),
     Raise ValueError).
Proof.
  intros Hd Hm Ho H Hb. apply write_csv_foreign_key; assumption.
Qed.

(** A third record with a new key: the first two lines stay in the file. *)
Lemma write_csv_extra_key_example :
  write_csv fs_grant fs_grant
    [ [("a", CNum 1)]; [("a", CNum 2)]; [("a", CNum 3); ("c", CNum 4)];
      [("a", CNum 5)] ]%string "out/t.csv"
  = (Some [ [CStr "a"]; [CNum 1]; [CNum 2] ]%string, Raise ValueError).
Proof.
  apply (write_csv_extra_key fs_grant fs_grant "out/t.csv" [("a", CNum 1%R)]%string
           [("a", CNum 3%R); ("c", CNum 4%R)]%string
           [ [("a", CNum 2%R)]%string ] [ [("a", CNum 5%R)]%string ]).
  - discriminate.
  - reflexivity.
  - reflexivity.
  - constructor; [| constructor]. intros k [<- | []]. left. reflexivity.
  - intro H. destruct (H "c"%string) as [E | []].
    + right. left. reflexivity.
    + discriminate E.
Defined.

(** ** Lag columns and incomplete rows *)

Lemma to_int_not_nil (z : Z) :
  Z.to_int z <> Decimal.Pos Decimal.Nil /\ Z.to_int z <> Decimal.Neg Decimal.Nil.
Proof.
  split; intro H; pose proof (DecimalZ.of_to z) as E; rewrite H in E;
    cbn in E; subst z; discriminate H.
Qed.

Lemma lag_name_inj (a b : Z) : lag_name a = lag_name b -> a = b.
Proof.
  unfold lag_name. intro H. cbn [String.append] in H. injection H as H.
  destruct (to_int_not_nil a) as [Ha1 Ha2]. destruct (to_int_not_nil b) as [Hb1 Hb2].
  pose proof (DecimalString.NilZero.isi _ Ha1 Ha2) as Ia.
  pose proof (DecimalString.NilZero.isi _ Hb1 Hb2) as Ib.
  rewrite H in Ia. rewrite Ia in Ib. injection Ib as Ib.
  apply DecimalZ.to_int_inj. exact Ib.
Qed.

Lemma lag_name_not_Y (lag : Z) : String.eqb (lag_name lag) "Y_kwh" = false.
Proof. reflexivity. Qed.

Lemma lookup_assign_same (cols : list (string * series)) (n : string) (s : series) :
  lookup_column (assign_column cols n s) n = Some s.
Proof.
  induction cols as [| [m c] cols IH]; cbn [assign_column lookup_column].
  - rewrite String.eqb_refl. reflexivity.
  - destruct (String.eqb m n) eqn:E; cbn [lookup_column]; rewrite E; [reflexivity | exact IH].
Qed.

Lemma lookup_assign_other (cols : list (string * series)) (n m : string) (s : series) :
  String.eqb n m = false ->
  lookup_column (assign_column cols n s) m = lookup_column cols m.
Proof.
  intro H. induction cols as [| [k c] cols IH]; cbn [assign_column lookup_column].
  - rewrite H. reflexivity.
  - destruct (String.eqb k n) eqn:E; cbn [lookup_column].
    + apply String.eqb_eq in E. subst k. rewrite H. reflexivity.
    + rewrite IH. reflexivity.
Qed.

Lemma assign_column_In (cols : list (string * series)) (n : string) (s : series)
  (c : string * series) :
  In c (assign_column cols n s) -> In c cols \/ c = (n, s).
Proof.
  induction cols as [| [k x] cols IH]; cbn [assign_column]; intro H.
  - destruct H as [<- | []]. right. reflexivity.
  - destruct (String.eqb k n) eqn:E.
    + apply String.eqb_eq in E. subst k.
      destruct H as [<- | H]; [right; reflexivity | left; right; exact H].
    + destruct H as [<- | H]; [left; left; reflexivity |].
      destruct (IH H) as [H' | H']; [left; right; exact H' | right; exact H'].
Qed.

Lemma lookup_column_In (cols : list (string * series)) (n : string) (s : series) :
  lookup_column cols n = Some s -> In (n, s) cols.
Proof.
  induction cols as [| [k x] cols IH]; cbn [lookup_column]; intro H; [discriminate |].
  destruct (String.eqb k n) eqn:E.
  - apply String.eqb_eq in E. injection H as <-. subst k. left. reflexivity.
  - right. apply IH, H.
Qed.

Lemma shift_length (k : Z) (s : series) : List.length (shift k s) = List.length s.
Proof. unfold shift. rewrite length_map, length_seq. reflexivity. Qed.

Lemma map_seq_nth {A : Type} (f : nat -> A) (n i : nat) (d : A) :
  (i < n)%nat -> nth i (map f (seq 0 n)) d = f i.
Proof.
  intro H. rewrite (nth_indep _ d (f 0%nat)) by (rewrite length_map, length_seq; exact H).
  rewrite map_nth, seq_nth by exact H. reflexivity.
Qed.

Lemma shift_nth (k : Z) (s : series) (i : nat) :
  (i < List.length s)%nat ->
  nth i (shift k s) None
  = if ((0 <=? Z.of_nat i - k) && (Z.of_nat i - k <? Z.of_nat (List.length s)))%Z
    then nth (Z.to_nat (Z.of_nat i - k)) s None
    else None.
Proof.
  intro H. unfold shift. rewrite map_seq_nth by exact H. reflexivity.
Qed.

(** What the loop over the lags leaves: the index and [Y_kwh] untouched, a
    column for every lag, and no column from elsewhere. *)
Lemma add_lags_result (lags : list Z) (out : DataFrame) (Y : series) :
  get_column out "Y_kwh" = Some Y ->
  exists res : DataFrame,
    fold_left add_lag lags (Some out) = Some res /\
    df_index res = df_index out /\
    get_column res "Y_kwh" = Some Y /\
    (forall l : Z, In l lags -> get_column res (lag_name l) = Some (shift l Y)) /\
    (forall c, In c (df_columns res) ->
       In c (df_columns out) \/ exists l : Z, In l lags /\ snd c = shift l Y) /\
    (forall (n : string) (s : series),
       (forall l : Z, In l lags -> String.eqb (lag_name l) n = false) ->
       get_column out n = Some s -> get_column res n = Some s).
Proof.
  revert out. induction lags as [| l lags IH]; intros out HY; cbn [fold_left].
  - exists out. split; [reflexivity |]. split; [reflexivity |]. split; [exact HY |].
    split; [intros l []|]. split; [intros c Hc; left; exact Hc |].
    intros n s _ Hs. exact Hs.
  - unfold add_lag at 2. rewrite HY.
    set (out1 := set_column out (lag_name l) (shift l Y)).
    assert (HY1 : get_column out1 "Y_kwh" = Some Y).
    { unfold out1, get_column, set_column. cbn [df_columns].
      rewrite lookup_assign_other by apply lag_name_not_Y. exact HY. }
    destruct (IH out1 HY1) as [res [E [Hi [Hy [Hl [Hc Hk]]]]]].
    exists res. split; [exact E |]. split; [rewrite Hi; reflexivity |].
    split; [exact Hy |]. split; [| split].
    + intros l' [<- | Hin]; [| apply Hl, Hin].
      destruct (in_dec Z.eq_dec l lags) as [Hin | Hout]; [apply Hl, Hin |].
      apply Hk.
      * intros l' Hl'. destruct (String.eqb (lag_name l') (lag_name l)) eqn:E'; [| reflexivity].
        apply String.eqb_eq, lag_name_inj in E'. subst l'. contradiction.
      * unfold out1, get_column, set_column. cbn [df_columns]. apply lookup_assign_same.
    + intros c Hin. destruct (Hc c Hin) as [H1 | [l' [Hl' E']]].
      * unfold out1, set_column in H1. cbn [df_columns] in H1.
        apply assign_column_In in H1. destruct H1 as [H1 | ->].
        -- left. exact H1.
        -- right. exists l. split; [left; reflexivity | reflexivity].
      * right. exists l'. split; [right; exact Hl' | exact E'].
    + intros n s Hn Hs. apply Hk.
      * intros l' Hl'. apply Hn. right. exact Hl'.
      * unfold out1, get_column, set_column. cbn [df_columns].
        rewrite lookup_assign_other; [exact Hs |]. apply Hn. left. reflexivity.
Qed.

Lemma lookup_column_map (g : series -> series) (cols : list (string * series))
  (n : string) :
  lookup_column (map (fun c => (fst c, g (snd c))) cols) n
  = option_map g (lookup_column cols n).
Proof.
  induction cols as [| [k c] cols IH]; cbn [map lookup_column fst snd]; [reflexivity |].
  destruct (String.eqb k n); [reflexivity | exact IH].
Qed.

Lemma get_column_dropna (df : DataFrame) (n : string) :
  get_column (dropna df) n
  = option_map (fun c => map (fun i => nth i c None) (kept_rows df)) (get_column df n).
Proof.
  unfold get_column, dropna. cbn [df_columns].
  apply (lookup_column_map (fun c => map (fun i => nth i c None) (kept_rows df))).
Qed.

Lemma kept_rows_In (df : DataFrame) (i : nat) :
  In i (kept_rows df)
  <-> (i < List.length (df_index df))%nat /\ row_complete df i = true.
Proof.
  unfold kept_rows. rewrite filter_In, in_seq. intuition lia.
Qed.

Lemma row_complete_column (df : DataFrame) (i : nat) (c : string * series) :
  row_complete df i = true -> In c (df_columns df) ->
  present (nth i (snd c) None) = true.
Proof.
  unfold row_complete. rewrite forallb_forall. intros H Hc. apply (H c Hc).
Qed.

Lemma dropna_complete (df : DataFrame) : complete (dropna df).
Proof.
  unfold complete, dropna. cbn [df_columns].
  apply Forall_forall. intros c Hc. apply in_map_iff in Hc.
  destruct Hc as [c0 [<- Hc0]]. cbn [snd].
  apply Forall_forall. intros x Hx. apply in_map_iff in Hx.
  destruct Hx as [i [<- Hi]]. apply kept_rows_In in Hi.
  apply (row_complete_column df i c0); [apply Hi | exact Hc0].
Qed.

Lemma seq_sorted (a n : nat) : Sorted.StronglySorted lt (seq a n).
Proof.
  revert a. induction n as [| n IH]; intro a; cbn [seq]; constructor.
  - apply IH.
  - apply Forall_forall. intros i Hi. apply in_seq in Hi. lia.
Qed.

Lemma filter_sorted (f : nat -> bool) (l : list nat) :
  Sorted.StronglySorted lt l -> Sorted.StronglySorted lt (filter f l).
Proof.
  induction 1 as [| a l Hs IH Ha]; cbn [filter]; [constructor |].
  destruct (f a); [| exact IH].
  constructor; [exact IH |].
  apply Forall_forall. intros i Hi. apply filter_In in Hi.
  rewrite Forall_forall in Ha. apply Ha, Hi.
Qed.

(** X19. With [add_y_lags] set, a [Y_kwh] column as long as the index and
    [lag] among the configured lags, the returned table has no NaN left; its
    rows are rows of the resampled table in their order; and in each of them
    the column [Y_lag_<lag>] holds the [Y_kwh] of the resampled table [lag]
    rows earlier, a row that exists. *)
Theorem lagged_features_alignment (cfg : FeatureConfig) (out : DataFrame)
  (Y : series) (lag : Z) :
  add_y_lags cfg = true ->
  get_column out "Y_kwh" = Some Y ->
  List.length Y = List.length (df_index out) ->
  In lag (y_lags cfg) ->
  exists (res : DataFrame) (kept : list nat),
    lagged_features cfg out = Some res /\
    complete res /\
    Sorted.StronglySorted lt kept /\
    df_index res = map (fun i => nth i (df_index out) (mk_datetime 0)) kept /\
    get_column res "Y_kwh" = Some (map (fun i => nth i Y None) kept) /\
    get_column res (lag_name lag)
    = Some (map (fun i => nth (Z.to_nat (Z.of_nat i - lag)) Y None) kept) /\
    Forall (fun i => (0 <= Z.of_nat i - lag < Z.of_nat (List.length Y))%Z) kept.
Proof.
  intros Hadd HY Hlen Hlag.
  destruct (add_lags_result (y_lags cfg) out Y HY)
    as [res0 [E [Hi [Hy [Hl [Hc Hk]]]]]].
  exists (dropna res0), (kept_rows res0).
  assert (Hin : forall i, In i (kept_rows res0) ->
                  ((0 <=? Z.of_nat i - lag)
                   && (Z.of_nat i - lag <? Z.of_nat (List.length Y)))%Z = true
                  /\ (i < List.length Y)%nat).
  { intros i Hk0. apply kept_rows_In in Hk0. destruct Hk0 as [Hlt Hrc].
    rewrite Hi, <- Hlen in Hlt. split; [| exact Hlt].
    pose proof (row_complete_column res0 i (lag_name lag, shift lag Y) Hrc
                  (lookup_column_In _ _ _ (Hl lag Hlag))) as Hp.
    cbn [snd] in Hp. rewrite shift_nth in Hp by exact Hlt.
    destruct (_ && _)%bool; [reflexivity | discriminate Hp]. }
  split; [unfold lagged_features; rewrite Hadd, E; reflexivity |].
  split; [apply dropna_complete |].
  split; [apply filter_sorted, seq_sorted |].
  split; [unfold dropna; cbn [df_index]; rewrite Hi; reflexivity |].
  split; [rewrite get_column_dropna, Hy; reflexivity |].
  split.
  - rewrite get_column_dropna, (Hl lag Hlag). cbn [option_map]. f_equal.
    apply map_ext_in. intros i Hk0. destruct (Hin i Hk0) as [Hr Hlt].
    rewrite shift_nth by exact Hlt. rewrite Hr. reflexivity.
  - apply Forall_forall. intros i Hk0. destruct (Hin i Hk0) as [Hr _].
    apply andb_true_iff in Hr. destruct Hr as [H1 H2].
    apply Z.leb_le in H1. apply Z.ltb_lt in H2. lia.
Qed.

(** The default lags on 48 hourly rows. *)
Lemma lagged_features_alignment_example :
  exists (res : DataFrame) (kept : list nat),
    lagged_features default_feature_config (sample_table 48) = Some res /\
    complete res /\
    get_column res (lag_name 1)
    = Some (map (fun i => nth (Z.to_nat (Z.of_nat i - 1))
                            (map (fun i => Some (INR i)) (seq 0 48)) None) kept).
Proof.
  destruct (lagged_features_alignment default_feature_config (sample_table 48)
              (map (fun i => Some (INR i)) (seq 0 48)) 1)
    as [res [kept [H1 [H2 [_ [_ [_ [H3 _]]]]]]]].
  - reflexivity.
  - reflexivity.
  - reflexivity.
  - left. reflexivity.
  - exists res, kept. split; [exact H1 |]. split; [exact H2 | exact H3].
Defined.

Lemma max_lag_le (lags : list Z) (i : Z) :
  (0 <= i)%Z -> ((max_lag lags <= i)%Z <-> forall l, In l lags -> (l <= i)%Z).
Proof.
  intro Hi. unfold max_lag. induction lags as [| a lags IH]; cbn [fold_right].
  - split; [intros _ l [] | intros _; exact Hi].
  - rewrite Z.max_lub_iff, IH. split.
    + intros [Ha H] l [<- | Hl]; [exact Ha | apply H, Hl].
    + intro H. split; [apply H; left; reflexivity |].
      intros l Hl. apply H. right. exact Hl.
Qed.

Lemma max_lag_nonneg (lags : list Z) : (0 <= max_lag lags)%Z.
Proof.
  unfold max_lag. induction lags as [| a lags IH]; cbn [fold_right]; lia.
Qed.

Lemma filter_seq_from (m n : nat) :
  filter (Nat.leb m) (seq 0 n) = seq m (n - m).
Proof.
  induction n as [| n IH]; [reflexivity |].
  rewrite seq_S, filter_app, IH. cbn [filter Nat.add].
  destruct (Nat.leb_spec m n) as [H | H].
  - replace (S n - m)%nat with (S (n - m)) by lia.
    rewrite seq_S. replace (m + (n - m))%nat with n by lia. reflexivity.
  - replace (S n - m)%nat with 0%nat by lia.
    replace (n - m)%nat with 0%nat by lia. reflexivity.
Qed.

Lemma map_nth_seq_skipn {A : Type} (l : list A) (d : A) (m : nat) :
  map (fun i => nth i l d) (seq m (List.length l - m)) = skipn m l.
Proof.
  revert m. induction l as [| a l IH]; intro m.
  - destruct m; reflexivity.
  - destruct m as [| m].
    + cbn [List.length Nat.sub seq map nth skipn]. f_equal.
      rewrite <- seq_shift, map_map. cbn [nth].
      specialize (IH 0%nat). rewrite Nat.sub_0_r in IH. cbn [skipn] in IH.
      destruct l; exact IH.
    + cbn [List.length Nat.sub skipn].
      rewrite <- seq_shift, map_map. cbn [nth]. apply IH.
Qed.

Lemma complete_nth (c : series) (i : nat) :
  Forall (fun x => present x = true) c -> (i < List.length c)%nat ->
  present (nth i c None) = true.
Proof.
  intros H Hi. rewrite Forall_forall in H. apply H, nth_In, Hi.
Qed.

Lemma kept_rows_complete_table (lags : list Z) (out res0 : DataFrame) (Y : series) :
  well_formed out ->
  complete out ->
  get_column out "Y_kwh" = Some Y ->
  Forall (fun l => (0 <= l)%Z) lags ->
  df_index res0 = df_index out ->
  (forall l : Z, In l lags -> get_column res0 (lag_name l) = Some (shift l Y)) ->
  (forall c, In c (df_columns res0) ->
     In c (df_columns out) \/ exists l : Z, In l lags /\ snd c = shift l Y) ->
  kept_rows res0
  = seq (Z.to_nat (max_lag lags))
        (List.length (df_index out) - Z.to_nat (max_lag lags)).
Proof.
  intros Hwf Hco HY Hpos Hi Hl Hc.
  pose proof (lookup_column_In _ _ _ HY) as HYin.
  assert (HlenY : List.length Y = List.length (df_index out)).
  { unfold well_formed in Hwf. rewrite Forall_forall in Hwf. apply (Hwf _ HYin). }
  assert (HYc : Forall (fun x => present x = true) Y).
  { unfold complete in Hco. rewrite Forall_forall in Hco. apply (Hco _ HYin). }
  unfold kept_rows. rewrite Hi, <- filter_seq_from.
  apply filter_ext_in. intros i Hin. apply in_seq in Hin.
  pose proof (max_lag_nonneg lags) as Hm.
  apply eq_true_iff_eq. rewrite Nat.leb_le. split.
  - intro Hrc.
    assert (Hz : (max_lag lags <= Z.of_nat i)%Z).
    { apply max_lag_le; [lia |]. intros l Hlin.
      pose proof (row_complete_column res0 i (lag_name l, shift l Y) Hrc
                    (lookup_column_In _ _ _ (Hl l Hlin))) as Hp.
      cbn [snd] in Hp. rewrite shift_nth in Hp by lia.
      destruct (Z.leb_spec 0 (Z.of_nat i - l)); [lia | discriminate Hp]. }
    lia.
  - intro Hle. unfold row_complete. apply forallb_forall. intros c Hcin. cbv beta.
    destruct (Hc c Hcin) as [Hout | [l [Hlin Heq]]];
      [| unfold series in Heq; rewrite Heq].
    + apply complete_nth.
      * unfold complete in Hco. rewrite Forall_forall in Hco. apply (Hco _ Hout).
      * unfold well_formed in Hwf. rewrite Forall_forall in Hwf.
        rewrite (Hwf _ Hout). lia.
    + assert (Hl0 : (0 <= l)%Z) by (rewrite Forall_forall in Hpos; apply Hpos, Hlin).
      assert (Hlm : (l <= Z.of_nat i)%Z).
      { apply (proj1 (max_lag_le lags (Z.of_nat i) ltac:(lia))); [lia | exact Hlin]. }
      rewrite shift_nth by lia.
      replace ((0 <=? Z.of_nat i - l) && (Z.of_nat i - l <? Z.of_nat (List.length Y)))%Z
        with true by (symmetry; apply andb_true_iff; split;
                      [apply Z.leb_le | apply Z.ltb_lt]; lia).
      apply complete_nth; [exact HYc | lia].
Qed.

(** X20. With [add_y_lags] set, a resampled table without NaN whose columns
    are as long as its index, and lags that are not negative, the returned
    table is the resampled table without its first [max_lag] rows, [max_lag]
    being the largest lag: the index and [Y_kwh] lose exactly those rows, and
    each [Y_lag_<l>] is [Y_kwh] shifted by [l], without those rows. *)
Theorem lagged_features_drops_head (cfg : FeatureConfig) (out : DataFrame)
  (Y : series) :
  add_y_lags cfg = true ->
  well_formed out ->
  complete out ->
  get_column out "Y_kwh" = Some Y ->
  Forall (fun l => (0 <= l)%Z) (y_lags cfg) ->
  let m := Z.to_nat (max_lag (y_lags cfg)) in
  exists res : DataFrame,
    lagged_features cfg out = Some res /\
    df_index res = skipn m (df_index out) /\
    List.length (df_index res) = (List.length (df_index out) - m)%nat /\
    get_column res "Y_kwh" = Some (skipn m Y) /\
    (forall l : Z, In l (y_lags cfg) ->
       get_column res (lag_name l) = Some (skipn m (shift l Y))).
Proof.
  intros Hadd Hwf Hco HY Hpos. cbv zeta.
  destruct (add_lags_result (y_lags cfg) out Y HY)
    as [res0 [E [Hi [Hy [Hl [Hc Hk]]]]]].
  pose proof (kept_rows_complete_table _ _ _ _ Hwf Hco HY Hpos Hi Hl Hc) as Hkept.
  assert (HlenY : List.length Y = List.length (df_index out)).
  { unfold well_formed in Hwf. rewrite Forall_forall in Hwf.
    apply (Hwf _ (lookup_column_In _ _ _ HY)). }
  exists (dropna res0).
  split; [unfold lagged_features; rewrite Hadd, E; reflexivity |].
  assert (Hidx : df_index (dropna res0)
                 = skipn (Z.to_nat (max_lag (y_lags cfg))) (df_index out)).
  { unfold dropna. cbn [df_index]. rewrite Hkept, Hi. apply map_nth_seq_skipn. }
  split; [exact Hidx |].
  split; [rewrite Hidx; apply length_skipn |].
  split.
  - rewrite get_column_dropna, Hy, Hkept, <- HlenY. cbn [option_map].
    f_equal. apply map_nth_seq_skipn.
  - intros l Hlin.
    rewrite get_column_dropna, (Hl l Hlin), Hkept, <- HlenY, <- (shift_length l Y).
    cbn [option_map]. f_equal. apply map_nth_seq_skipn.
Qed.

Lemma sample_table_well_formed (n : nat) : well_formed (sample_table n).
Proof.
  unfold well_formed, sample_table. cbn [df_columns df_index].
  repeat (constructor; [cbn [snd]; rewrite !length_map; reflexivity |]).
  constructor.
Qed.

Lemma sample_table_complete (n : nat) : complete (sample_table n).
Proof.
  unfold complete, sample_table. cbn [df_columns].
  repeat (constructor;
          [cbn [snd]; apply Forall_forall; intros x Hx; apply in_map_iff in Hx;
           destruct Hx as [i [<- _]]; reflexivity |]).
  constructor.
Qed.

(** The default lags 1 and 24 on 48 hourly rows: the first 24 rows go. *)
Lemma lagged_features_drops_first_day :
  exists res : DataFrame,
    lagged_features default_feature_config (sample_table 48) = Some res /\
    df_index res = skipn 24 (df_index (sample_table 48)) /\
    List.length (df_index res) = 24%nat.
Proof.
  destruct (lagged_features_drops_head default_feature_config (sample_table 48)
              (map (fun i => Some (INR i)) (seq 0 48)))
    as [res [H1 [H2 [H3 _]]]].
  - reflexivity.
  - apply sample_table_well_formed.
  - apply sample_table_complete.
  - reflexivity.
  - repeat constructor; discriminate.
  - exists res. split; [exact H1 |]. split; [exact H2 | exact H3].
Defined.

